(** * PillPilot: dose scheduling and next-dose computation

    A shallow embedding of the scheduling services of PillPilot
    (MealTimingService, SchedulingService, NextPillService, the regimen
    part of DatabaseService, the meal lookup of NotificationService and the
    countdown helpers of NextPillScreen) and proofs of their behaviour.

    Modelling conventions.
    - A JavaScript [Date] is its time value: a whole number of milliseconds,
      [Z].  The device's local time zone is modelled as a fixed-offset zone
      without daylight saving, with the local clock counted from the epoch,
      so a calendar day is a block of 86 400 000 ms.
    - JavaScript numbers that may be fractional ([intervalHours], the
      [windowMs / timesPerDay] step) are exact rationals [Q]; floating-point
      rounding is not modelled there.  Building a [Date] from a number
      applies TimeClip, i.e. truncation toward zero ([time_clip]).
    - Clock strings such as [earliestTime] are free text: [Number] on their
      parts follows StringToNumber in full, with binary64 rounding, and the
      [Date] built from them follows MakeTime, MakeDate and TimeClip
      ([Clamp.clock_bound]).
    - ISO-8601 and JSON column encodings are modelled by their decoded
      values; they round-trip exactly. *)

From Stdlib Require Import ZArith QArith Qround List String Ascii Bool Lia.
From Stdlib Require Import Sorted Permutation DecimalString Lqa Qabs.
Import ListNotations.
Open Scope Z_scope.

(* ------------------------------------------------------------------ *)
(** ** JavaScript dates *)

Module JsDate.

Definition ms_per_day : Z := 86400000.
Definition ms_per_hour : Z := 3600000.

(** TimeClip / ToIntegerOrInfinity: truncation toward zero. *)
Definition time_clip (q : Q) : Z :=
  if Qle_bool 0 q then Qfloor q else - Qfloor (- q).

(** [new Date(t.getTime() + ms)] *)
Definition date_add (t : Z) (ms : Q) : Z := time_clip (inject_Z t + ms).

(** Local midnight of the day containing [t]. *)
Definition day_start (t : Z) : Z := t - t mod ms_per_day.

(** [new Date(d.getFullYear(), d.getMonth(), d.getDate(), h, mi, s, ms)],
    also [new Date(d); x.setHours(h, mi, s, ms)] (MakeTime adds the
    components, so out-of-range values carry over). *)
Definition local_at (t h mi s ms : Z) : Z :=
  day_start t + h * ms_per_hour + mi * 60000 + s * 1000 + ms.

(** [d.getHours()] *)
Definition getHours (t : Z) : Z := (t mod ms_per_day) / ms_per_hour.

(** [d.getDay()]: 0 = Sunday; 1970-01-01 was a Thursday. *)
Definition getDay (t : Z) : Z := (t / ms_per_day + 4) mod 7.

End JsDate.
Import JsDate.

(* ------------------------------------------------------------------ *)
(** ** Data model (src/types) *)

Inductive Frequency := Daily | Weekly | Cycles | Interval | TimesPerDay.

Definition Frequency_eqb (a b : Frequency) : bool :=
  match a, b with
  | Daily, Daily | Weekly, Weekly | Cycles, Cycles
  | Interval, Interval | TimesPerDay, TimesPerDay => true
  | _, _ => false
  end.

Module Regimen.
Record t := mk {
  id : string;
  medicationId : string;
  doseAmount : string;
  frequency : Frequency;
  daysOfWeek : option (list string);
  intervalHours : option Q;
  timesPerDay : option Z;
  startDate : Z;
  endDate : option Z;
  prn : bool;
  prnMaxPerDay : option Z;
  lastTakenAt : option Z;
  createdAt : Z;
  updatedAt : Z
}.
End Regimen.

Module Constraints.
Record t := mk {
  id : string;
  regimenId : string;
  withFood : bool;
  noFoodBeforeMinutes : option Z;
  afterFoodMinutes : option Z;
  earliestTime : option string;
  latestTime : option string;
  quietHours : bool
}.
End Constraints.

Definition Qlt_bool (a b : Q) : bool := negb (Qle_bool b a).

(** JavaScript truthiness of optional numeric fields ([undefined] and [0]
    are falsy). *)
Definition truthy_Q (o : option Q) : bool :=
  match o with Some q => negb (Qeq_bool q 0) | None => false end.

Definition truthy_Z (o : option Z) : bool :=
  match o with Some z => negb (z =? 0) | None => false end.

(* ------------------------------------------------------------------ *)
(** ** MealTimingService.generateRegimenBaseSchedule (theme.ts) *)

Module MealTiming.

(** [regimen.intervalHours * 60 * 60 * 1000] *)
Definition interval_ms (h : Q) : Q := (h * 60 * 60 * 1000)%Q.

(** [while (base <= endOfDay) { push(base); base = new Date(base + step) }]
    with fuel; [None] is a loop that has not exited. *)
Fixpoint interval_loop (fuel : nat) (base endOfDay : Z) (h : Q)
  : option (list Z) :=
  match fuel with
  | O => None
  | S f =>
      if base <=? endOfDay then
        match interval_loop f (date_add base (interval_ms h)) endOfDay h with
        | Some l => Some (base :: l)
        | None => None
        end
      else Some []
  end.

(** The interval branch: start at [lastTakenAt] when it is later than the
    start of the day, at the start of the day otherwise. *)
Definition interval_start (lastTakenAt : option Z) (startOfDay : Z) : Z :=
  match lastTakenAt with
  | Some l => if startOfDay <? l then l else startOfDay
  | None => startOfDay
  end.

(** [for (let i = 0; i < timesPerDay; i++) push(new Date(t + i * step))] *)
Definition times_per_day_instants (date k : Z) : list Z :=
  let startHour := 7 in
  let endHour := 22 in
  let windowMs := ((endHour - startHour) * 60 * 60 * 1000) in
  let step := (inject_Z windowMs / inject_Z k)%Q in
  map (fun i => date_add (local_at date startHour 0 0 0)
                         (inject_Z (Z.of_nat i) * step)%Q)
      (seq 0 (Z.to_nat k)).

(** The [timesPerDay] branch of [generateRegimenBaseSchedule], reached when
    the interval branch is not taken. *)
Definition times_per_day_branch (r : Regimen.t) (date : Z) : option (list Z) :=
  match Regimen.frequency r, Regimen.timesPerDay r with
  | TimesPerDay, Some k =>
      if truthy_Z (Some k) && (0 <? k)
      then Some (times_per_day_instants date k) else Some []
  | _, _ => Some []
  end.

(** The scheduled times of [generateRegimenBaseSchedule regimen date]
    (medication id, reason and dose annotations omitted); [None] when the
    interval loop does not terminate (an interval under one millisecond). *)
Definition generateRegimenBaseSchedule (r : Regimen.t) (date : Z)
  : option (list Z) :=
  let startOfDay := local_at date 0 0 0 0 in
  let endOfDay := local_at date 23 59 59 999 in
  match Regimen.frequency r, Regimen.intervalHours r with
  | Interval, Some h =>
      if truthy_Q (Some h) && Qlt_bool 0 h then
        let base := interval_start (Regimen.lastTakenAt r) startOfDay in
        interval_loop (Z.to_nat (endOfDay - base) + 2) base endOfDay h
      else times_per_day_branch r date
  | _, _ => times_per_day_branch r date
  end.

End MealTiming.

(* ------------------------------------------------------------------ *)
(** ** MealTimingService.calculateMedicationTime: the clock-bound step *)

Module MedicationSchedule.
Record t := mk { scheduledTime : Z; reason : string }.
End MedicationSchedule.

Module Clamp.
Local Open Scope string_scope.

(** *** [Number(s)] (StringToNumber)

    A string is a sequence of UTF-16 code units; the model holds code units
    below 256, one [ascii] each (Latin-1). *)

(** JavaScript Number values: a finite double (its exact rational value),
    an infinity, or NaN. *)
Inductive number := Finite (q : Q) | Infinity (negative : bool) | NaN.

(** The Number value for a mathematical value: IEEE 754 binary64 rounding
    to nearest, ties to even, with gradual underflow; a value past the
    largest finite double rounds to an infinity. *)
Definition round_double (q : Q) : number :=
  let n := Qnum q in
  let d := Zpos (Qden q) in
  if (n =? 0)%Z then Finite 0%Q else
  let a := Z.abs n in
  let e0 := (Z.log2 a - Z.log2 d)%Z in
  let above :=
    if (0 <=? e0)%Z then (d * 2 ^ e0 <=? a)%Z else (d <=? a * 2 ^ (- e0))%Z in
  (* 2^exponent <= |q| < 2^(exponent+1) *)
  let exponent := if above then e0 else (e0 - 1)%Z in
  let quantum := Z.max (exponent - 52) (-1074) in
  let N := if (quantum <? 0)%Z then (a * 2 ^ (- quantum))%Z else a in
  let D := if (quantum <? 0)%Z then d else (d * 2 ^ quantum)%Z in
  let m0 := (N / D)%Z in
  let twice_r := (2 * (N mod D))%Z in
  let m := if (twice_r <? D)%Z then m0
           else if (D <? twice_r)%Z then (m0 + 1)%Z
           else if Z.even m0 then m0 else (m0 + 1)%Z in
  let v := (inject_Z m * Qpower (inject_Z 2) quantum)%Q in
  if Qle_bool (inject_Z (2 ^ 1024)) v then Infinity (n <? 0)%Z
  else Finite (if (n <? 0)%Z then (- v)%Q else v).

(** StrWhiteSpaceChar below 256: TAB, LF, VT, FF, CR, SPACE and NBSP. *)
Definition is_white (c : ascii) : bool :=
  let n := nat_of_ascii c in
  ((n =? 9) || (n =? 10) || (n =? 11) || (n =? 12) || (n =? 13)
   || (n =? 32) || (n =? 160))%nat.

Fixpoint drop_white (l : list ascii) : list ascii :=
  match l with
  | c :: r => if is_white c then drop_white r else l
  | [] => []
  end.

(** Leading and trailing StrWhiteSpace removed. *)
Definition trim (l : list ascii) : list ascii :=
  rev (drop_white (rev (drop_white l))).

(** The value of [c] as a digit in [base] (2, 8, 10 or 16). *)
Definition digit_in (base : Z) (c : ascii) : option Z :=
  let n := Z.of_nat (nat_of_ascii c) in
  let v := (if (48 <=? n) && (n <=? 57) then n - 48
            else if (97 <=? n) && (n <=? 102) then n - 87
            else if (65 <=? n) && (n <=? 70) then n - 55
            else base)%Z in
  if (v <? base)%Z then Some v else None.

(** The longest prefix of digits in [base], and the rest. *)
Fixpoint take_digits (base : Z) (l : list ascii) : list Z * list ascii :=
  match l with
  | c :: r =>
      match digit_in base c with
      | Some v => let '(ds, rest) := take_digits base r in (v :: ds, rest)
      | None => ([], l)
      end
  | [] => ([], [])
  end.

Definition digits_value (base : Z) (ds : list Z) : Z :=
  fold_left (fun acc v => acc * base + v)%Z ds 0%Z.

(** An optional ExponentPart that ends the literal: [e] or [E], an
    optional sign, one digit at least. *)
Definition exponent_part (l : list ascii) : option Z :=
  match l with
  | [] => Some 0%Z
  | c :: r =>
      if Ascii.eqb c "e"%char || Ascii.eqb c "E"%char then
        let '(sign, r') :=
          match r with
          | c' :: r'' =>
              if Ascii.eqb c' "+"%char then (1%Z, r'')
              else if Ascii.eqb c' "-"%char then ((-1)%Z, r'')
              else (1%Z, r)
          | [] => (1%Z, r)
          end in
        match take_digits 10 r' with
        | ([], _) => None
        | (ds, []) => Some (sign * digits_value 10 ds)%Z
        | (_, _ :: _) => None
        end
      else None
  end.

(** StrUnsignedDecimalLiteral other than [Infinity]: [DecimalDigits],
    [DecimalDigits . DecimalDigits?] or [. DecimalDigits], then an optional
    ExponentPart; its exact mathematical value. *)
Definition unsigned_decimal (l : list ascii) : option Q :=
  let '(int, r1) := take_digits 10 l in
  let '(frac, r2) :=
    match r1 with
    | c :: r => if Ascii.eqb c "."%char then take_digits 10 r else ([], r1)
    | [] => ([], [])
    end in
  match app int frac, exponent_part r2 with
  | [], _ => None
  | ds, Some e =>
      Some (inject_Z (digits_value 10 ds)
            * Qpower (inject_Z 10) (e - Z.of_nat (List.length frac)))%Q
  | _, None => None
  end.

(** StrUnsignedDecimalLiteral, under a sign.  A literal of more than 20
    significant digits is rounded correctly, one of the results the
    standard allows. *)
Definition decimal_literal (l : list ascii) (negative : bool) : number :=
  if String.eqb (string_of_list_ascii l) "Infinity" then Infinity negative
  else match unsigned_decimal l with
       | Some q => round_double (if negative then (- q)%Q else q)
       | None => NaN
       end.

(** NonDecimalIntegerLiteral after its [0x], [0o] or [0b] prefix. *)
Definition non_decimal (base : Z) (l : list ascii) : number :=
  match take_digits base l with
  | ([], _) => NaN
  | (ds, []) => round_double (inject_Z (digits_value base ds))
  | (_, _ :: _) => NaN
  end.

(** StrNumericLiteral: a non-decimal integer (unsigned), or a decimal
    literal with an optional sign. *)
Definition str_numeric (l : list ascii) : number :=
  match l with
  | c :: x :: r =>
      if Ascii.eqb c "0"%char && (Ascii.eqb x "x"%char || Ascii.eqb x "X"%char)
      then non_decimal 16 r
      else if Ascii.eqb c "0"%char && (Ascii.eqb x "o"%char || Ascii.eqb x "O"%char)
      then non_decimal 8 r
      else if Ascii.eqb c "0"%char && (Ascii.eqb x "b"%char || Ascii.eqb x "B"%char)
      then non_decimal 2 r
      else if Ascii.eqb c "+"%char then decimal_literal (x :: r) false
      else if Ascii.eqb c "-"%char then decimal_literal (x :: r) true
      else decimal_literal l false
  | [c] =>
      if Ascii.eqb c "+"%char || Ascii.eqb c "-"%char then NaN
      else decimal_literal l false
  | [] => NaN
  end.

(** [Number(s)]: whitespace is trimmed, an empty or blank string is 0,
    anything that is not a StrNumericLiteral is NaN. *)
Definition js_Number (s : string) : number :=
  match trim (list_ascii_of_string s) with
  | [] => Finite 0%Q
  | l => str_numeric l
  end.

(** [s.split(sep)] *)
Fixpoint split_on (sep : ascii) (s : string) : list string :=
  match s with
  | EmptyString => [EmptyString]
  | String c r =>
      let rest := split_on sep r in
      if Ascii.eqb c sep then EmptyString :: rest
      else match rest with
           | w :: ws => String c w :: ws
           | [] => [String c EmptyString]
           end
  end.

Definition finite (x : number) : option Q :=
  match x with Finite q => Some q | _ => None end.

(** [const [hours, minutes] = s.split(':').map(Number);
     new Date(y, m, d, hours, minutes, 0, 0)]; [None] is an Invalid Date.
    A missing minutes component is [undefined], i.e. NaN.  MakeTime
    returns NaN for a non-finite component and truncates the others
    (ToIntegerOrInfinity); it and MakeDate compute in Number arithmetic,
    each sum and product rounded (the seconds and milliseconds are 0 and
    add nothing); TimeClip returns NaN past 8.64e15 ms. *)
Definition clock_bound (s : string) (targetDate : Z) : option Z :=
  match map js_Number (split_on ":"%char s) with
  | Finite hours :: Finite minutes :: _ =>
      let h := inject_Z (time_clip hours) in
      let mi := inject_Z (time_clip minutes) in
      match finite (round_double (h * inject_Z ms_per_hour)%Q),
            finite (round_double (mi * inject_Z 60000)%Q) with
      | Some a, Some b =>
          match finite (round_double (a + b)%Q) with
          | Some t =>
              match finite (round_double (inject_Z (day_start targetDate) + t)%Q) with
              | Some tv =>
                  if Qle_bool (Qabs tv) (inject_Z 8640000000000000)
                  then Some (time_clip tv) else None
              | None => None
              end
          | None => None
          end
      | _, _ => None
      end
  | _ => None
  end.

(** [if (constraints.earliestTime) schedules.forEach(...)]: a candidate
    earlier than the bound is moved up to it.  Comparisons with an Invalid
    Date are false. *)
Definition clamp_earliest (c : Constraints.t) (targetDate : Z)
    (schedules : list MedicationSchedule.t) : list MedicationSchedule.t :=
  match Constraints.earliestTime c with
  | Some s =>
      if String.eqb s "" then schedules else
      match clock_bound s targetDate with
      | Some earliestTime =>
          map (fun sc =>
                 if (MedicationSchedule.scheduledTime sc <? earliestTime)%Z
                 then MedicationSchedule.mk earliestTime
                        (MedicationSchedule.reason sc
                           ++ " (adjusted to earliest allowed time)")
                 else sc) schedules
      | None => schedules
      end
  | None => schedules
  end.

(** [if (constraints.latestTime) schedules.forEach(...)]: a candidate later
    than the bound is moved down to it. *)
Definition clamp_latest (c : Constraints.t) (targetDate : Z)
    (schedules : list MedicationSchedule.t) : list MedicationSchedule.t :=
  match Constraints.latestTime c with
  | Some s =>
      if String.eqb s "" then schedules else
      match clock_bound s targetDate with
      | Some latestTime =>
          map (fun sc =>
                 if (latestTime <? MedicationSchedule.scheduledTime sc)%Z
                 then MedicationSchedule.mk latestTime
                        (MedicationSchedule.reason sc
                           ++ " (adjusted to latest allowed time)")
                 else sc) schedules
      | None => schedules
      end
  | None => schedules
  end.

(** The clamping step: the earliest rule, then the latest rule. *)
Definition clamp (c : Constraints.t) (targetDate : Z)
    (schedules : list MedicationSchedule.t) : list MedicationSchedule.t :=
  clamp_latest c targetDate (clamp_earliest c targetDate schedules).

Definition times (schedules : list MedicationSchedule.t) : list Z :=
  map MedicationSchedule.scheduledTime schedules.

(** The bound a rule compares against, when the rule fires at all. *)
Definition bound_of (field : option string) (targetDate : Z) : option Z :=
  match field with
  | Some s => if String.eqb s "" then None else clock_bound s targetDate
  | None => None
  end.

Definition raise_to (b : option Z) (t : Z) : Z :=
  match b with Some e => if (t <? e)%Z then e else t | None => t end.

Definition lower_to (b : option Z) (t : Z) : Z :=
  match b with Some l => if (l <? t)%Z then l else t | None => t end.

End Clamp.

(* ------------------------------------------------------------------ *)
(** ** SchedulingService.shouldTakeOnDate *)

Module Scheduling.
Local Open Scope string_scope.

Definition dayNames : list string :=
  ["sunday"; "monday"; "tuesday"; "wednesday"; "thursday"; "friday";
   "saturday"].

Definition shouldTakeOnDate (regimen : Regimen.t) (date : Z) : bool :=
  let dayOfWeek := getDay date in
  match Regimen.frequency regimen with
  | Daily => true
  | Weekly =>
      match Regimen.daysOfWeek regimen with
      | Some days =>
          existsb (String.eqb (nth (Z.to_nat dayOfWeek) dayNames "")) days
      | None => false
      end
  | _ => false
  end.

(** [day.toString()] for a weekday index 0..6, the form in which the
    add-regimen and add-medication screens store [daysOfWeek]. *)
Definition day_index_string (day : Z) : string :=
  String (ascii_of_nat (48 + Z.to_nat day)) EmptyString.

(** The days a user selects by tapping all seven weekday buttons. *)
Definition all_days_selected : list string :=
  map day_index_string [0; 1; 2; 3; 4; 5; 6].

(** Eligibility as the spec states it: the date's weekday index is among
    [daysOfWeek]. *)
Definition spec_weekly_eligible (regimen : Regimen.t) (date : Z) : bool :=
  match Regimen.daysOfWeek regimen with
  | Some days => existsb (String.eqb (day_index_string (getDay date))) days
  | None => false
  end.

End Scheduling.

(* ------------------------------------------------------------------ *)
(** ** NextPillService: next-due time of a regimen *)

Module NextPill.

(** [calculateIntervalBasedNextDose]: [lastTakenAt + intervalHours], or the
    current time when either is missing. *)
Definition calculateIntervalBasedNextDose (regimen : Regimen.t) (now : Z) : Z :=
  match Regimen.lastTakenAt regimen, Regimen.intervalHours regimen with
  | Some lastTaken, Some h =>
      if truthy_Q (Some h) then date_add lastTaken (MealTiming.interval_ms h)
      else now
  | _, _ => now
  end.

(** The [for] loop of [calculateTimesPerDayNextDose]: the first dose hour
    later than the current hour, [nextHour] (= [wakeTime]) otherwise. *)
Fixpoint first_dose_after (doseHours : list Q) (currentHour : Z) (nextHour : Q)
  : Q :=
  match doseHours with
  | [] => nextHour
  | doseHour :: rest =>
      if Qlt_bool (inject_Z currentHour) doseHour then doseHour
      else first_dose_after rest currentHour nextHour
  end.

Definition calculateTimesPerDayNextDose (timesPerDay fromTime : Z) : Z :=
  let wakeTime := 7 in
  let sleepTime := 22 in
  let awakeHours := sleepTime - wakeTime in
  let intervalHours := (inject_Z awakeHours / inject_Z timesPerDay)%Q in
  let currentHour := getHours fromTime in
  let doseHours :=
    map (fun i => (inject_Z wakeTime + inject_Z (Z.of_nat i) * intervalHours)%Q)
        (seq 0 (Z.to_nat timesPerDay)) in
  let nextHour := first_dose_after doseHours currentHour (inject_Z wakeTime) in
  if Qle_bool nextHour (inject_Z currentHour) then
    (* tomorrow.setDate(tomorrow.getDate() + 1); tomorrow.setHours(7, 0, 0, 0) *)
    local_at (fromTime + ms_per_day) wakeTime 0 0 0
  else
    (* nextDose.setHours(Math.floor(nextHour), (nextHour % 1) * 60, 0, 0) *)
    local_at fromTime (Qfloor nextHour)
      (time_clip ((nextHour - inject_Z (Qfloor nextHour)) * 60)%Q) 0 0.

(** [calculateInitialDoseTime]: keyed on the [timesPerDay] field; every
    other regimen starts now. *)
Definition calculateInitialDoseTime (regimen : Regimen.t) (now : Z) : Z :=
  match Regimen.timesPerDay regimen with
  | Some k => if truthy_Z (Some k) then calculateTimesPerDayNextDose k now
              else now
  | None => now
  end.

Record MealConstraints := mkMealConstraints {
  needsFood : bool;
  waitAfterFood : option Z;
  waitBeforeFood : option Z;
  nextMealTime : Z
}.

(** [checkMealConstraints]: the first constraint with a food rule yields
    the proposed time unchanged as [nextMealTime], provided user
    preferences exist. *)
Definition checkMealConstraints (constraints : list Constraints.t)
    (userPrefsExist : bool) (proposedTime : Z) : option MealConstraints :=
  match find (fun c => Constraints.withFood c
                       || truthy_Z (Constraints.noFoodBeforeMinutes c)
                       || truthy_Z (Constraints.afterFoodMinutes c))
             constraints with
  | Some c =>
      if userPrefsExist then
        Some (mkMealConstraints (Constraints.withFood c)
                (Constraints.afterFoodMinutes c)
                (Constraints.noFoodBeforeMinutes c) proposedTime)
      else None
  | None => None
  end.

(** [canTakeNow] *)
Definition canTakeNow (regimen : Regimen.t) (now : Z) : bool :=
  match Regimen.lastTakenAt regimen, Regimen.intervalHours regimen with
  | Some lastTaken, Some h =>
      if truthy_Q (Some h) then
        negb (now <? date_add lastTaken (MealTiming.interval_ms h))
      else true
  | _, _ => true
  end.

Record NextPillCalculation := mkCalc {
  regimenId : string;
  medicationName : string;
  nextDueTime : Z;
  isOverdue : bool;
  minutesOverdue : option Z;
  canTake : bool;
  mealConstraints : option MealConstraints
}.

(** [calculateNextDoseForRegimen] on already-fetched constraints. *)
Definition calculateNextDoseForRegimen (medicationName0 : string)
    (regimen : Regimen.t) (constraints : list Constraints.t)
    (userPrefsExist : bool) (now : Z) : NextPillCalculation :=
  let due0 :=
    match Regimen.lastTakenAt regimen with
    | None => calculateInitialDoseTime regimen now
    | Some _ => calculateIntervalBasedNextDose regimen now
    end in
  let meal := checkMealConstraints constraints userPrefsExist due0 in
  let due := match meal with Some m => nextMealTime m | None => due0 end in
  let overdue := due <? now in
  mkCalc (Regimen.id regimen) medicationName0 due overdue
    (if overdue then Some ((now - due) / 60000) else None)
    (canTakeNow regimen now) meal.


(** [Array.prototype.sort] with comparator [a.nextDueTime - b.nextDueTime]:
    a stable sort, here insertion sort. *)
Fixpoint insert_by_due (x : NextPillCalculation) (l : list NextPillCalculation)
  : list NextPillCalculation :=
  match l with
  | [] => [x]
  | y :: rest =>
      if nextDueTime x <=? nextDueTime y then x :: y :: rest
      else y :: insert_by_due x rest
  end.

Fixpoint sort_by_due (l : list NextPillCalculation) : list NextPillCalculation :=
  match l with
  | [] => []
  | x :: rest => insert_by_due x (sort_by_due rest)
  end.

(** An entry of the medications-then-regimens loop: the medication name, the
    regimen, its constraints. *)
Definition RegimenEntry : Type := (string * Regimen.t * list Constraints.t)%type.

(** The calculations of the loop over medications and regimens. *)
Definition calculations (entries : list RegimenEntry) (userPrefsExist : bool)
    (now : Z) : list NextPillCalculation :=
  map (fun e => match e with
                | (name, r, cs) =>
                    calculateNextDoseForRegimen name r cs userPrefsExist now
                end) entries.

(** [getTodaysPills]: [endOfDay] is today at 23:59:59.999. *)
Definition getTodaysPills (entries : list RegimenEntry) (userPrefsExist : bool)
    (now : Z) : list NextPillCalculation :=
  let endOfDay := local_at now 23 59 59 999 in
  sort_by_due (filter (fun c => nextDueTime c <=? endOfDay)
                      (calculations entries userPrefsExist now)).


(** The set the spec describes: next-due time within [now, end-of-today]. *)
Definition spec_todays (c : NextPillCalculation) (now : Z) : bool :=
  (now <=? nextDueTime c) && (nextDueTime c <=? local_at now 23 59 59 999).

(** The order the result is sorted in: ascending next-due time. *)
Definition due_le (a b : NextPillCalculation) : Prop :=
  nextDueTime a <= nextDueTime b.

End NextPill.

(* ------------------------------------------------------------------ *)
(** ** The store, the notification facility and the services' effects *)

Module Medication.
Record t := mk { id : string; name : string; form : string }.
End Medication.

Inductive DoseStatus := Scheduled | Taken | Skipped | Missed.

Module DoseEvent.
Record t := mk {
  id : string;
  regimenId : string;
  scheduledAt : Z;
  takenAt : option Z;
  status : DoseStatus;
  reason : option string;
  createdAt : Z
}.
End DoseEvent.

Module Notification.
Record t := mk { id : string; scheduledFor : Z; kind : string }.
End Notification.

Module Store.
Local Open Scope string_scope.

(** Observable effects, in the order they happen. *)
Inductive Effect :=
| SqlUpdateRegimens (regimenId : string) (columns : list string)
| SqlInsertDoseEvent (doseEventId : string)
| NotificationScheduled (n : Notification.t)
| ConsoleError (message : string).

Inductive Exn :=
| TypeError (message : string)
| JsError (message : string).

(** [db] is [this.db !== null]; [uuid_counter] stands for the random source
    of [generateUUID]; [clock] is what [new Date()] returns. *)
Record World := mkWorld {
  db_open : bool;
  medications : list Medication.t;
  regimens : list Regimen.t;
  constraints : list Constraints.t;
  dose_events : list DoseEvent.t;
  clock : Z;
  uuid_counter : nat;
  effects : list Effect
}.

(** An [async] function: its result (a rejection or a value) and the world
    after it. *)
Definition M (A : Type) : Type := World -> (Exn + A) * World.

Definition ret {A} (a : A) : M A := fun w => (inr a, w).
Definition bind {A B} (m : M A) (k : A -> M B) : M B :=
  fun w => match m w with
           | (inl e, w') => (inl e, w')
           | (inr a, w') => k a w'
           end.
Definition throw {A} (e : Exn) : M A := fun w => (inl e, w).
(** [try { m } catch (e) { h(e) }] *)
Definition try_catch {A} (m : M A) (h : Exn -> M A) : M A :=
  fun w => match m w with
           | (inl e, w') => h e w'
           | ok => ok
           end.

Local Notation "x <- m ;; k" := (bind m (fun x => k))
  (at level 61, m at next level, right associativity).
Local Notation "m ;;; k" := (bind m (fun _ => k))
  (at level 61, right associativity).

Definition emit (e : Effect) : M unit :=
  fun w => (inr tt, mkWorld (db_open w) (medications w) (regimens w)
                      (constraints w) (dose_events w) (clock w)
                      (uuid_counter w) (effects w ++ [e])).

Definition console_error (msg : string) : M unit := emit (ConsoleError msg).

Definition new_Date : M Z := fun w => (inr (clock w), w).

Fixpoint forEach {A} (l : list A) (f : A -> M unit) : M unit :=
  match l with
  | [] => ret tt
  | x :: rest => f x ;;; forEach rest f
  end.

(** [obj.member(arg)]: calling a member the object does not have throws a
    [TypeError]. *)
Definition invoke {A B} (name : string) (member : option (A -> M B)) (a : A)
  : M B :=
  match member with
  | Some f => f a
  | None => throw (TypeError (name ++ " is not a function"))
  end.

(** *** DatabaseService *)

Definition checkInitialized : M unit :=
  fun w => if db_open w then (inr tt, w)
           else (inl (JsError "Database not initialized. Call init() first."), w).

(** The identifier [generateUUID] draws from the random source in state [n]. *)
Definition uuid_string (n : nat) : string :=
  "uuid-" ++ NilEmpty.string_of_uint (Nat.to_uint n).

Definition generateUUID : M string :=
  fun w => (inr (uuid_string (uuid_counter w)),
            mkWorld (db_open w) (medications w) (regimens w) (constraints w)
              (dose_events w) (clock w) (S (uuid_counter w)) (effects w)).

Definition find_regimen (w : World) (regimenId : string) : option Regimen.t :=
  find (fun r => String.eqb (Regimen.id r) regimenId) (regimens w).

(** [getMedication] *)
Definition getMedication (medicationId : string) : M (option Medication.t) :=
  checkInitialized ;;;
  fun w => (inr (find (fun m => String.eqb (Medication.id m) medicationId)
                      (medications w)), w).

(** [getConstraintsByRegimen] *)
Definition getConstraintsByRegimen (regimenId : string)
  : M (list Constraints.t) :=
  checkInitialized ;;;
  fun w => (inr (filter (fun c => String.eqb (Constraints.regimenId c) regimenId)
                        (constraints w)), w).

Definition set_doseAmount (v : string) (r : Regimen.t) : Regimen.t :=
  Regimen.mk (Regimen.id r) (Regimen.medicationId r) v (Regimen.frequency r) (Regimen.daysOfWeek r) (Regimen.intervalHours r) (Regimen.timesPerDay r) (Regimen.startDate r) (Regimen.endDate r) (Regimen.prn r) (Regimen.prnMaxPerDay r) (Regimen.lastTakenAt r) (Regimen.createdAt r) (Regimen.updatedAt r).

Definition set_frequency (v : Frequency) (r : Regimen.t) : Regimen.t :=
  Regimen.mk (Regimen.id r) (Regimen.medicationId r) (Regimen.doseAmount r) v (Regimen.daysOfWeek r) (Regimen.intervalHours r) (Regimen.timesPerDay r) (Regimen.startDate r) (Regimen.endDate r) (Regimen.prn r) (Regimen.prnMaxPerDay r) (Regimen.lastTakenAt r) (Regimen.createdAt r) (Regimen.updatedAt r).

Definition set_daysOfWeek (v : list string) (r : Regimen.t) : Regimen.t :=
  Regimen.mk (Regimen.id r) (Regimen.medicationId r) (Regimen.doseAmount r) (Regimen.frequency r) (Some v) (Regimen.intervalHours r) (Regimen.timesPerDay r) (Regimen.startDate r) (Regimen.endDate r) (Regimen.prn r) (Regimen.prnMaxPerDay r) (Regimen.lastTakenAt r) (Regimen.createdAt r) (Regimen.updatedAt r).

Definition set_intervalHours (v : Q) (r : Regimen.t) : Regimen.t :=
  Regimen.mk (Regimen.id r) (Regimen.medicationId r) (Regimen.doseAmount r) (Regimen.frequency r) (Regimen.daysOfWeek r) (Some v) (Regimen.timesPerDay r) (Regimen.startDate r) (Regimen.endDate r) (Regimen.prn r) (Regimen.prnMaxPerDay r) (Regimen.lastTakenAt r) (Regimen.createdAt r) (Regimen.updatedAt r).

Definition set_timesPerDay (v : Z) (r : Regimen.t) : Regimen.t :=
  Regimen.mk (Regimen.id r) (Regimen.medicationId r) (Regimen.doseAmount r) (Regimen.frequency r) (Regimen.daysOfWeek r) (Regimen.intervalHours r) (Some v) (Regimen.startDate r) (Regimen.endDate r) (Regimen.prn r) (Regimen.prnMaxPerDay r) (Regimen.lastTakenAt r) (Regimen.createdAt r) (Regimen.updatedAt r).

Definition set_startDate (v : Z) (r : Regimen.t) : Regimen.t :=
  Regimen.mk (Regimen.id r) (Regimen.medicationId r) (Regimen.doseAmount r) (Regimen.frequency r) (Regimen.daysOfWeek r) (Regimen.intervalHours r) (Regimen.timesPerDay r) v (Regimen.endDate r) (Regimen.prn r) (Regimen.prnMaxPerDay r) (Regimen.lastTakenAt r) (Regimen.createdAt r) (Regimen.updatedAt r).

Definition set_endDate (v : option Z) (r : Regimen.t) : Regimen.t :=
  Regimen.mk (Regimen.id r) (Regimen.medicationId r) (Regimen.doseAmount r) (Regimen.frequency r) (Regimen.daysOfWeek r) (Regimen.intervalHours r) (Regimen.timesPerDay r) (Regimen.startDate r) v (Regimen.prn r) (Regimen.prnMaxPerDay r) (Regimen.lastTakenAt r) (Regimen.createdAt r) (Regimen.updatedAt r).

Definition set_prn (v : bool) (r : Regimen.t) : Regimen.t :=
  Regimen.mk (Regimen.id r) (Regimen.medicationId r) (Regimen.doseAmount r) (Regimen.frequency r) (Regimen.daysOfWeek r) (Regimen.intervalHours r) (Regimen.timesPerDay r) (Regimen.startDate r) (Regimen.endDate r) v (Regimen.prnMaxPerDay r) (Regimen.lastTakenAt r) (Regimen.createdAt r) (Regimen.updatedAt r).

Definition set_prnMaxPerDay (v : Z) (r : Regimen.t) : Regimen.t :=
  Regimen.mk (Regimen.id r) (Regimen.medicationId r) (Regimen.doseAmount r) (Regimen.frequency r) (Regimen.daysOfWeek r) (Regimen.intervalHours r) (Regimen.timesPerDay r) (Regimen.startDate r) (Regimen.endDate r) (Regimen.prn r) (Some v) (Regimen.lastTakenAt r) (Regimen.createdAt r) (Regimen.updatedAt r).

Definition set_lastTakenAt (v : option Z) (r : Regimen.t) : Regimen.t :=
  Regimen.mk (Regimen.id r) (Regimen.medicationId r) (Regimen.doseAmount r) (Regimen.frequency r) (Regimen.daysOfWeek r) (Regimen.intervalHours r) (Regimen.timesPerDay r) (Regimen.startDate r) (Regimen.endDate r) (Regimen.prn r) (Regimen.prnMaxPerDay r) v (Regimen.createdAt r) (Regimen.updatedAt r).

Definition set_updatedAt (v : Z) (r : Regimen.t) : Regimen.t :=
  Regimen.mk (Regimen.id r) (Regimen.medicationId r) (Regimen.doseAmount r) (Regimen.frequency r) (Regimen.daysOfWeek r) (Regimen.intervalHours r) (Regimen.timesPerDay r) (Regimen.startDate r) (Regimen.endDate r) (Regimen.prn r) (Regimen.prnMaxPerDay r) (Regimen.lastTakenAt r) (Regimen.createdAt r) v.

(** The argument of [updateRegimen]: one optional entry per mutable field
    ([None] is [undefined]); [endDate] and [lastTakenAt] may be given as
    [null]. *)
Record RegimenPatch := mkPatch {
  u_doseAmount : option string;
  u_frequency : option Frequency;
  u_daysOfWeek : option (list string);
  u_intervalHours : option Q;
  u_timesPerDay : option Z;
  u_startDate : option Z;
  u_endDate : option (option Z);
  u_prn : option bool;
  u_prnMaxPerDay : option Z;
  u_lastTakenAt : option (option Z)
}.

Definition empty_patch : RegimenPatch :=
  mkPatch None None None None None None None None None None.

Definition push_if {A} (o : option A) (column : string)
    (setter : A -> Regimen.t -> Regimen.t)
  : list (string * (Regimen.t -> Regimen.t)) :=
  match o with Some v => [(column ++ " = ?", setter v)] | None => [] end.

(** The [sets] (with their [values]) built by [updateRegimen]. *)
Definition regimen_sets (updates : RegimenPatch)
  : list (string * (Regimen.t -> Regimen.t)) :=
  push_if (u_doseAmount updates) "doseAmount" set_doseAmount
  ++ push_if (u_frequency updates) "frequency" set_frequency
  ++ push_if (u_daysOfWeek updates) "daysOfWeek" set_daysOfWeek
  ++ push_if (u_intervalHours updates) "intervalHours" set_intervalHours
  ++ push_if (u_timesPerDay updates) "timesPerDay" set_timesPerDay
  ++ push_if (u_startDate updates) "startDate" set_startDate
  ++ push_if (u_endDate updates) "endDate" set_endDate
  ++ push_if (u_prn updates) "prn" set_prn
  ++ push_if (u_prnMaxPerDay updates) "prnMaxPerDay" set_prnMaxPerDay
  ++ push_if (u_lastTakenAt updates) "lastTakenAt" set_lastTakenAt.

(** [UPDATE regimens SET <sets>, updatedAt = ? WHERE id = ?] *)
Definition sql_update_regimens (regimenId : string)
    (sets : list (string * (Regimen.t -> Regimen.t))) (now : Z) : M unit :=
  fun w =>
    if db_open w then
      let row r := set_updatedAt now (fold_left (fun r s => snd s r) sets r) in
      (inr tt,
       mkWorld (db_open w) (medications w)
         (map (fun r => if String.eqb (Regimen.id r) regimenId then row r else r)
              (regimens w))
         (constraints w) (dose_events w) (clock w) (uuid_counter w)
         (effects w ++ [SqlUpdateRegimens regimenId (map fst sets)]))
    else (inl (JsError "Database not initialized"), w).

Definition updateRegimen (regimenId : string) (updates : RegimenPatch) : M unit :=
  checkInitialized ;;;
  now <- new_Date ;;
  let sets := regimen_sets updates in
  match sets with
  | [] => ret tt
  | _ => sql_update_regimens regimenId sets now
  end.

(** [INSERT INTO dose_events ...] *)
Definition sql_insert_dose_event (ev : DoseEvent.t) : M unit :=
  fun w =>
    if db_open w then
      (inr tt,
       mkWorld (db_open w) (medications w) (regimens w) (constraints w)
         (dose_events w ++ [ev]) (clock w) (uuid_counter w)
         (effects w ++ [SqlInsertDoseEvent (DoseEvent.id ev)]))
    else (inl (JsError "Database not initialized"), w).

(** [saveDoseEvent] *)
Definition saveDoseEvent (regimenId : string) (scheduledAt : Z)
    (takenAt : option Z) (status : DoseStatus) (reason : option string)
  : M string :=
  checkInitialized ;;;
  id <- generateUUID ;;
  now <- new_Date ;;
  sql_insert_dose_event
    (DoseEvent.mk id regimenId scheduledAt takenAt status reason now) ;;;
  ret id.

(** Members read by [scheduleNextNotifications] that the classes do not
    define: [DatabaseService] has [getMedication] and
    [getRegimensByMedication] but no [getRegimen]; [NotificationService] has
    [scheduleMedicationReminder], [scheduleNextDoseNotification],
    [scheduleCanEatNotification] and others but no [scheduleNotification].
    Reading either property yields [undefined]. *)
Definition databaseService_getRegimen
  : option (string -> M (option Regimen.t)) := None.
Definition notificationService_scheduleNotification
  : option (Notification.t -> M unit) := None.

(** [NextPillService.scheduleNextNotifications] *)
Definition scheduleNextNotifications (regimenId : string) (takenAt : Z)
  : M unit :=
  try_catch
    (regimen <- invoke "databaseService.getRegimen"
                  databaseService_getRegimen regimenId ;;
     match regimen with
     | None => ret tt
     | Some regimen =>
         medication <- getMedication (Regimen.medicationId regimen) ;;
         match medication with
         | None => ret tt
         | Some medication =>
             cs <- getConstraintsByRegimen regimenId ;;
             (if truthy_Q (Regimen.intervalHours regimen) then
                match Regimen.intervalHours regimen with
                | Some h =>
                    invoke "notificationService.scheduleNotification"
                      notificationService_scheduleNotification
                      (Notification.mk ("next-dose-" ++ regimenId)
                         (date_add takenAt (MealTiming.interval_ms h)) "next_dose")
                | None => ret tt
                end
              else ret tt) ;;;
             forEach cs (fun c =>
               match Constraints.afterFoodMinutes c with
               | Some m =>
                   if truthy_Z (Some m) then
                     invoke "notificationService.scheduleNotification"
                       notificationService_scheduleNotification
                       (Notification.mk ("can-eat-" ++ regimenId)
                          (takenAt + m * 60 * 1000) "can_eat")
                   else ret tt
               | None => ret tt
               end)
         end
     end)
    (fun _ => console_error "Error scheduling notifications:").

(** [NextPillService.markPillTaken] *)
Definition markPillTaken (regimenId : string) (takenAt : Z) : M unit :=
  try_catch
    (updateRegimen regimenId
       (mkPatch None None None None None None None None None (Some (Some takenAt))) ;;;
     saveDoseEvent regimenId takenAt (Some takenAt) Taken (Some "user-marked") ;;;
     scheduleNextNotifications regimenId takenAt)
    (fun e => console_error "Error marking pill taken:" ;;; throw e).

(** Successive [markPillTaken] calls on one regimen, as a user marks doses
    taken at the timestamps [takenAts]. *)
Definition mark_taken_sequence (regimenId : string) (takenAts : list Z)
  : M unit :=
  forEach takenAts (fun takenAt => markPillTaken regimenId takenAt).

(** The row the spec describes after an update with patch [u] at time [now]:
    every provided field replaced, [updatedAt] set to [now], the rest kept. *)
Definition override {A} (o : option A) (d : A) : A :=
  match o with Some v => v | None => d end.

Definition patched_row (u : RegimenPatch) (now : Z) (r : Regimen.t)
  : Regimen.t :=
  Regimen.mk (Regimen.id r) (Regimen.medicationId r)
    (override (u_doseAmount u) (Regimen.doseAmount r))
    (override (u_frequency u) (Regimen.frequency r))
    (override (option_map Some (u_daysOfWeek u)) (Regimen.daysOfWeek r))
    (override (option_map Some (u_intervalHours u)) (Regimen.intervalHours r))
    (override (option_map Some (u_timesPerDay u)) (Regimen.timesPerDay r))
    (override (u_startDate u) (Regimen.startDate r))
    (override (u_endDate u) (Regimen.endDate r))
    (override (u_prn u) (Regimen.prn r))
    (override (option_map Some (u_prnMaxPerDay u)) (Regimen.prnMaxPerDay r))
    (override (u_lastTakenAt u) (Regimen.lastTakenAt r))
    (Regimen.createdAt r) now.

End Store.

(* ------------------------------------------------------------------ *)
(** ** MealTimingService.calculateMedicationTime in full (theme.ts) *)

Module MedTime.

(** [MealTiming]: the four meal instants of a day, all valid dates (an
    Invalid Date from [calculateMealTimes] is outside this model). *)
Record MealTiming := mkMealTiming {
  breakfast : Z; lunch : Z; dinner : Z; snack : Z
}.

(** [`${n}`] for an integer [n]. *)
Definition js_int_string (n : Z) : string :=
  NilZero.string_of_int (Z.to_int n).

(** The schedules pushed by the [withFood], [noFoodBeforeMinutes] and
    [afterFoodMinutes] rules, in push order ([medicationId] and [mealType]
    are not modelled). *)
Definition candidates (c : Constraints.t) (mealTimes : MealTiming)
  : list MedicationSchedule.t :=
  (if Constraints.withFood c then
     [MedicationSchedule.mk (breakfast mealTimes) "Take with breakfast"%string;
      MedicationSchedule.mk (lunch mealTimes) "Take with lunch"%string;
      MedicationSchedule.mk (dinner mealTimes) "Take with dinner"%string]
   else [])
  ++ (match Constraints.noFoodBeforeMinutes c with
      | Some n =>
          if truthy_Z (Some n) then
            [MedicationSchedule.mk (breakfast mealTimes - n * 60000)
               (js_int_string n ++ " minutes before breakfast")%string;
             MedicationSchedule.mk (lunch mealTimes - n * 60000)
               (js_int_string n ++ " minutes before lunch")%string;
             MedicationSchedule.mk (dinner mealTimes - n * 60000)
               (js_int_string n ++ " minutes before dinner")%string]
          else []
      | None => []
      end)
  ++ (match Constraints.afterFoodMinutes c with
      | Some n =>
          if truthy_Z (Some n) then
            [MedicationSchedule.mk (breakfast mealTimes + n * 60000)
               (js_int_string n ++ " minutes after breakfast")%string;
             MedicationSchedule.mk (lunch mealTimes + n * 60000)
               (js_int_string n ++ " minutes after lunch")%string;
             MedicationSchedule.mk (dinner mealTimes + n * 60000)
               (js_int_string n ++ " minutes after dinner")%string]
          else []
      | None => []
      end).

(** [Array.prototype.findIndex]; [None] is [-1]. *)
Fixpoint find_index {A} (p : A -> bool) (l : list A) : option nat :=
  match l with
  | [] => None
  | x :: rest => if p x then Some O else option_map S (find_index p rest)
  end.

(** [schedules.filter((schedule, index, self) =>
      index === self.findIndex(s => s.scheduledTime.getTime()
                                    === schedule.scheduledTime.getTime()))] *)
Definition unique_by_time (self : list MedicationSchedule.t)
  : list MedicationSchedule.t :=
  map fst
    (filter (fun '(schedule, index) =>
               match find_index (fun s => MedicationSchedule.scheduledTime s
                                          =? MedicationSchedule.scheduledTime schedule)
                                self with
               | Some j => Nat.eqb index j
               | None => false
               end)
            (combine self (seq 0 (List.length self)))).

(** [sort((a, b) => a.scheduledTime - b.scheduledTime)], a stable sort. *)
Fixpoint insert_by_time (x : MedicationSchedule.t) (l : list MedicationSchedule.t)
  : list MedicationSchedule.t :=
  match l with
  | [] => [x]
  | y :: rest =>
      if MedicationSchedule.scheduledTime x <=? MedicationSchedule.scheduledTime y
      then x :: y :: rest
      else y :: insert_by_time x rest
  end.

Fixpoint sort_by_time (l : list MedicationSchedule.t) : list MedicationSchedule.t :=
  match l with
  | [] => []
  | x :: rest => insert_by_time x (sort_by_time rest)
  end.

(** [calculateMedicationTime constraints mealTimes targetDate] *)
Definition calculateMedicationTime (c : Constraints.t) (mealTimes : MealTiming)
    (targetDate : Z) : list MedicationSchedule.t :=
  sort_by_time (unique_by_time (Clamp.clamp c targetDate (candidates c mealTimes))).

(** The schedules whose time did not occur before, [seen] holding the times
    met so far: the index filter above read left to right. *)
Fixpoint first_occurrences (seen : list Z) (l : list MedicationSchedule.t)
  : list MedicationSchedule.t :=
  match l with
  | [] => []
  | x :: rest =>
      if existsb (Z.eqb (MedicationSchedule.scheduledTime x)) seen
      then first_occurrences seen rest
      else x :: first_occurrences (MedicationSchedule.scheduledTime x :: seen) rest
  end.

End MedTime.

(* ------------------------------------------------------------------ *)
(** ** MealTimingService.getMedicationSchedulesForDate and
       getNextMedicationTime (theme.ts) *)

Module DaySchedule.

(** The meal-time fields of [UserPrefs]. *)
Record UserPrefs := mkUserPrefs {
  breakfastTime : string; lunchTime : string; dinnerTime : string;
  snackTime : string
}.

(** [calculateMealTimes date]: throws when the service holds no user
    preferences; [None] is an Invalid Date. *)
Definition calculateMealTimes (userPrefs : option UserPrefs) (date : Z)
  : Store.Exn + (option Z * option Z * option Z * option Z) :=
  match userPrefs with
  | None => inl (Store.JsError "MealTimingService not initialized"%string)
  | Some p =>
      inr (Clamp.clock_bound (breakfastTime p) date,
           Clamp.clock_bound (lunchTime p) date,
           Clamp.clock_bound (dinnerTime p) date,
           Clamp.clock_bound (snackTime p) date)
  end.

(** A regimen of the medications-then-regimens loop with its constraints,
    as the database returns them (the database reads themselves are not
    modelled). *)
Definition DayEntry : Type := (Regimen.t * list Constraints.t)%type.

(** The loop of [getMedicationSchedulesForDate]: [None] when a base schedule
    does not terminate, [inl] when it throws, else the times pushed.  For a
    regimen with constraints, [calculateMealTimes] is called; the constrained
    schedules computed from it are discarded ("For now, keep base times"), so
    only its exception matters. *)
Fixpoint schedules_loop (entries : list DayEntry) (userPrefs : option UserPrefs)
    (date : Z) : option (Store.Exn + list Z) :=
  match entries with
  | [] => Some (inr [])
  | (regimen, constraints) :: rest =>
      match MealTiming.generateRegimenBaseSchedule regimen date with
      | None => None
      | Some regimenSchedules =>
          match (match constraints with
                 | [] => inr tt
                 | _ => match calculateMealTimes userPrefs date with
                        | inl e => inl e
                        | inr _ => inr tt
                        end
                 end) with
          | inl e => Some (inl e)
          | inr _ =>
              match schedules_loop rest userPrefs date with
              | Some (inr l) => Some (inr (regimenSchedules ++ l))
              | other => other
              end
          end
      end
  end.

(** [allSchedules.sort((a, b) => a.scheduledTime - b.scheduledTime)] on the
    scheduled times. *)
Fixpoint insert_time (x : Z) (l : list Z) : list Z :=
  match l with
  | [] => [x]
  | y :: rest => if x <=? y then x :: y :: rest else y :: insert_time x rest
  end.

Fixpoint sort_times (l : list Z) : list Z :=
  match l with
  | [] => []
  | x :: rest => insert_time x (sort_times rest)
  end.

(** [getMedicationSchedulesForDate date]: the scheduled times; an exception
    is caught and logged and yields [[]]. *)
Definition getMedicationSchedulesForDate (entries : list DayEntry)
    (userPrefs : option UserPrefs) (date : Z) : option (list Z) :=
  match schedules_loop entries userPrefs date with
  | None => None
  | Some (inl _) => Some []
  | Some (inr l) => Some (sort_times l)
  end.


End DaySchedule.

(* ------------------------------------------------------------------ *)
(** ** NextPillScreen: the countdown helpers *)

Module Screen.

(** [d.getMinutes()] *)
Definition getMinutes (t : Z) : Z := (t mod ms_per_hour) / 60000.

(** [const today = new Date(); today.setHours(s.getHours(), s.getMinutes(), 0, 0)],
    both [new Date()] calls reading the clock value [now]. *)
Definition today_at (scheduledTime now : Z) : Z :=
  local_at now (getHours scheduledTime) (getMinutes scheduledTime) 0 0.

(** [getTimeUntil(scheduledTime)] *)
Definition getTimeUntil (scheduledTime now : Z) : string :=
  let diff := today_at scheduledTime now - now in
  if diff <? 0 then "Overdue"%string
  else
    let hours := diff / (1000 * 60 * 60) in
    let minutes := (diff mod (1000 * 60 * 60)) / (1000 * 60) in
    if 0 <? hours
    then (MedTime.js_int_string hours ++ "h " ++ MedTime.js_int_string minutes ++ "m")%string
    else (MedTime.js_int_string minutes ++ "m")%string.

(** [isOverdue(scheduledTime)] *)
Definition isOverdue (scheduledTime now : Z) : bool :=
  today_at scheduledTime now <? now.

(** [isUpcoming(scheduledTime)] *)
Definition isUpcoming (scheduledTime now : Z) : bool :=
  let diff := today_at scheduledTime now - now in
  (0 <? diff) && (diff <=? 30 * 60 * 1000).

End Screen.

(* ------------------------------------------------------------------ *)
(** ** SchedulingService.detectConflicts *)

Module Conflicts.

Record ScheduleConflict := mkConflict {
  type : string; description : string; severity : string; suggestedFix : string
}.

(** An entry of [schedule.medications]: its [medicationId] and
    [scheduledTimes]. *)
Record ScheduledMedication := mkScheduled {
  medicationId : string; scheduledTimes : list Z
}.

Definition timing_conflict : ScheduleConflict :=
  mkConflict "timing" "Medications scheduled too close together" "medium"
    "Space medications at least 30 minutes apart"%string.

Definition schedule_conflict : ScheduleConflict :=
  mkConflict "schedule" "Dose already taken at different time" "low"
    "Adjust schedule to avoid double dosing"%string.

(** The nested [for i < j] loop over [allTimes]. *)
Fixpoint pair_conflicts (allTimes : list Z) : list ScheduleConflict :=
  match allTimes with
  | [] => []
  | time1 :: rest =>
      map (fun _ => timing_conflict)
          (filter (fun time2 => Z.abs (time1 - time2) <? 30 * 60 * 1000) rest)
      ++ pair_conflicts rest
  end.

(** The loop over [existingDoses]. *)
Definition dose_conflicts (medications : list ScheduledMedication)
    (existingDoses : list DoseEvent.t) : list ScheduleConflict :=
  flat_map (fun dose =>
              match DoseEvent.status dose with
              | Taken =>
                  match find (fun m => String.eqb (medicationId m)
                                                  (DoseEvent.regimenId dose))
                             medications with
                  | Some _ => [schedule_conflict]
                  | None => []
                  end
              | _ => []
              end) existingDoses.

(** [detectConflicts(schedule, existingDoses)] *)
Definition detectConflicts (medications : list ScheduledMedication)
    (existingDoses : list DoseEvent.t) : list ScheduleConflict :=
  pair_conflicts (flat_map scheduledTimes medications)
  ++ dose_conflicts medications existingDoses.

End Conflicts.

(* ------------------------------------------------------------------ *)
(** ** NotificationService.findNearestMeal *)

Module Meals.

Record MealEvent := mkMealEvent { id : string; dateTime : Z; type : string }.

(** The [for] loop, [minDiff = None] standing for [Infinity]. *)
Fixpoint nearest_loop (time : Z) (meals : list MealEvent)
    (nearestMeal : option MealEvent) (minDiff : option Z) : option MealEvent :=
  match meals with
  | [] => nearestMeal
  | meal :: rest =>
      let diff := Z.abs (dateTime meal - time) in
      if match minDiff with None => true | Some d => diff <? d end
      then nearest_loop time rest (Some meal) (Some diff)
      else nearest_loop time rest nearestMeal minDiff
  end.

(** [findNearestMeal(time, meals)] *)
Definition findNearestMeal (time : Z) (meals : list MealEvent) : option MealEvent :=
  match meals with
  | [] => None
  | _ => nearest_loop time meals None None
  end.

End Meals.
(* ------------------------------------------------------------------ *)
(** ** Sample inputs *)

Module Samples.
Local Open Scope string_scope.

(** A regimen of [k] doses a day. *)
Definition times_per_day_regimen (k : Z) : Regimen.t :=
  Regimen.mk "reg-tpd" "med-1" "1" TimesPerDay None None (Some k) 0 None false
    None None 0 0.

(** 2024-10-04 (day 20000 of the epoch) at 08:00. *)
Definition oct4_0800 : Z := 20000 * ms_per_day + 8 * ms_per_hour.

(** An every-six-hours regimen last taken at [lastTakenAt]. *)
Definition six_hourly (lastTakenAt : option Z) : Regimen.t :=
  Regimen.mk "reg-6h" "med-1" "1" Interval None (Some 6%Q) None 0 None false
    None lastTakenAt 0 0.


(** A weekly regimen with all seven weekday buttons selected. *)
Definition weekly_all_days : Regimen.t :=
  Regimen.mk "reg-w" "med-1" "1" Weekly (Some Scheduling.all_days_selected)
    None None 0 None false None None 0 0.

(** Wait 30 minutes after the dose before eating. *)
Definition after_food_30 : Constraints.t :=
  Constraints.mk "c-1" "reg-6h" true None (Some 30) None None false.

(** An open database holding medication [med-1] and the given regimens and
    constraints, with the clock at [oct4_0800]. *)
Definition sample_world (regs : list Regimen.t) (cs : list Constraints.t)
  : Store.World :=
  Store.mkWorld true [Medication.mk "med-1" "Aspirin" "tablet"] regs cs []
    oct4_0800 0 [].

(** A patch setting only [doseAmount]. *)
Definition dose_patch : Store.RegimenPatch :=
  Store.mkPatch (Some "2") None None None None None None None None None.

(** Food rules with a 08:00 to 20:00 window, typed with surrounding
    spaces. *)
Definition windowed_constraint : Constraints.t :=
  Constraints.mk "c-2" "reg-tpd" true (Some 30) (Some 60) (Some " 8:00")
    (Some "20:00 ") false.

(** Food rules whose earliest time (21:00) is after their latest (06:00). *)
Definition inverted_constraint : Constraints.t :=
  Constraints.mk "c-3" "reg-tpd" true None None (Some "21:00") (Some "06:00")
    false.

(** Meals on 2024-10-04: breakfast 07:30, lunch 12:30, dinner 18:30, snack
    15:00. *)
Definition oct4_meals : MedTime.MealTiming :=
  MedTime.mkMealTiming (local_at oct4_0800 7 30 0 0) (local_at oct4_0800 12 30 0 0)
    (local_at oct4_0800 18 30 0 0) (local_at oct4_0800 15 0 0 0).

(** A database that has not been initialised. *)
Definition closed_world : Store.World :=
  Store.mkWorld false [] [Regimen.mk "reg-6h" "med-1" "1" Interval None (Some 6%Q)
                            None 0 None false None None 0 0] [] [] oct4_0800 0 [].

End Samples.

(* ================================================================== *)
(** * Proofs *)

(** ** Date arithmetic *)

Lemma time_clip_Z (z : Z) : time_clip (inject_Z z) = z.
Proof.
  unfold time_clip.
  destruct (Qle_bool 0 (inject_Z z)) eqn:E.
  - apply Qfloor_Z.
  - replace (- inject_Z z)%Q with (inject_Z (- z)).
    + rewrite Qfloor_Z; lia.
    + unfold Qopp, inject_Z; simpl; reflexivity.
Qed.

Lemma time_clip_comp (q q' : Q) : (q == q')%Q -> time_clip q = time_clip q'.
Proof.
  intros H. unfold time_clip.
  assert (Hb : Qle_bool 0 q = Qle_bool 0 q').
  { destruct (Qle_bool 0 q) eqn:E1, (Qle_bool 0 q') eqn:E2; auto.
    - apply Qle_bool_iff in E1. rewrite H in E1.
      apply Qle_bool_iff in E1. congruence.
    - apply Qle_bool_iff in E2. rewrite <- H in E2.
      apply Qle_bool_iff in E2. congruence. }
  rewrite Hb. destruct (Qle_bool 0 q').
  - apply Qfloor_comp; exact H.
  - f_equal. apply Qfloor_comp. rewrite H. reflexivity.
Qed.

Lemma time_clip_nonneg (q : Q) : (0 <= q)%Q -> time_clip q = Qfloor q.
Proof.
  intros H. unfold time_clip.
  apply Qle_bool_iff in H. rewrite H. reflexivity.
Qed.









(** ** The clock-bound step of the constraint evaluator *)

Lemma times_clamp_earliest (c : Constraints.t) (d : Z) ss :
  Clamp.times (Clamp.clamp_earliest c d ss)
  = map (Clamp.raise_to (Clamp.bound_of (Constraints.earliestTime c) d))
        (Clamp.times ss).
Proof.
  unfold Clamp.clamp_earliest, Clamp.bound_of, Clamp.times.
  destruct (Constraints.earliestTime c) as [s|].
  2: { simpl. rewrite map_id. reflexivity. }
  destruct (String.eqb s "").
  { simpl. rewrite map_id. reflexivity. }
  destruct (Clamp.clock_bound s d) as [e|]; simpl.
  2: { rewrite map_id. reflexivity. }
  rewrite !map_map. apply map_ext. intros sc.
  unfold Clamp.raise_to.
  destruct (MedicationSchedule.scheduledTime sc <? e); reflexivity.
Qed.

Lemma times_clamp_latest (c : Constraints.t) (d : Z) ss :
  Clamp.times (Clamp.clamp_latest c d ss)
  = map (Clamp.lower_to (Clamp.bound_of (Constraints.latestTime c) d))
        (Clamp.times ss).
Proof.
  unfold Clamp.clamp_latest, Clamp.bound_of, Clamp.times.
  destruct (Constraints.latestTime c) as [s|].
  2: { simpl. rewrite map_id. reflexivity. }
  destruct (String.eqb s "").
  { simpl. rewrite map_id. reflexivity. }
  destruct (Clamp.clock_bound s d) as [l|]; simpl.
  2: { rewrite map_id. reflexivity. }
  rewrite !map_map. apply map_ext. intros sc.
  unfold Clamp.lower_to.
  destruct (l <? MedicationSchedule.scheduledTime sc); reflexivity.
Qed.

Lemma times_clamp (c : Constraints.t) (d : Z) ss :
  Clamp.times (Clamp.clamp c d ss)
  = map (fun t => Clamp.lower_to (Clamp.bound_of (Constraints.latestTime c) d)
                    (Clamp.raise_to (Clamp.bound_of (Constraints.earliestTime c) d) t))
        (Clamp.times ss).
Proof.
  unfold Clamp.clamp. rewrite times_clamp_latest, times_clamp_earliest, map_map.
  reflexivity.
Qed.

Lemma raise_to_max (e t : Z) : Clamp.raise_to (Some e) t = Z.max t e.
Proof. unfold Clamp.raise_to. destruct (Z.ltb_spec t e); lia. Qed.

Lemma lower_to_min (l t : Z) : Clamp.lower_to (Some l) t = Z.min t l.
Proof. unfold Clamp.lower_to. destruct (Z.ltb_spec l t); lia. Qed.

Lemma raise_lower_idem (E L : option Z) (t : Z) :
  Clamp.lower_to L (Clamp.raise_to E (Clamp.lower_to L (Clamp.raise_to E t)))
  = Clamp.lower_to L (Clamp.raise_to E t).
Proof.
  destruct E as [e|], L as [l|];
    rewrite ?raise_to_max, ?lower_to_min; simpl; rewrite ?raise_to_max, ?lower_to_min; lia.
Qed.

(** C9: re-applying the earliest/latest clamping of
    [calculateMedicationTime] to already clamped candidates changes no
    candidate time. *)
Theorem clamp_idempotent (c : Constraints.t) (targetDate : Z)
    (schedules : list MedicationSchedule.t) :
  Clamp.times (Clamp.clamp c targetDate (Clamp.clamp c targetDate schedules))
  = Clamp.times (Clamp.clamp c targetDate schedules).
Proof.
  rewrite !times_clamp, map_map. apply map_ext. intros t.
  apply raise_lower_idem.
Qed.

(** ** The [timesPerDay] branch of the schedule generator *)










(** ** The [interval] branch of the schedule generator *)

Section IntervalLoop.

Variables (endOfDay : Z) (h : Q).
Hypothesis Hstep : (1 <= MealTiming.interval_ms h)%Q.


End IntervalLoop.









(** ** Next-due time *)


Lemma checkMealConstraints_time (cs : list Constraints.t) (prefs : bool)
    (t : Z) (m : NextPill.MealConstraints) :
  NextPill.checkMealConstraints cs prefs t = Some m ->
  NextPill.nextMealTime m = t.
Proof.
  unfold NextPill.checkMealConstraints.
  destruct (find _ cs) as [c|]; [|discriminate].
  destruct prefs; [|discriminate]. intros E. injection E as <-. reflexivity.
Qed.

(** The meal check never moves the due time. *)
Lemma calculateNextDose_due (name : string) (reg : Regimen.t)
    (cs : list Constraints.t) (prefs : bool) (now : Z) :
  NextPill.nextDueTime (NextPill.calculateNextDoseForRegimen name reg cs prefs now)
  = match Regimen.lastTakenAt reg with
    | None => NextPill.calculateInitialDoseTime reg now
    | Some _ => NextPill.calculateIntervalBasedNextDose reg now
    end.
Proof.
  unfold NextPill.calculateNextDoseForRegimen. cbv zeta.
  cbn [NextPill.nextDueTime].
  destruct (NextPill.checkMealConstraints _ _ _) as [m|] eqn:E; [|reflexivity].
  exact (checkMealConstraints_time _ _ _ _ E).
Qed.

(** ** The store *)

Lemma find_regimen_update (l : list Regimen.t) (r : string)
    (g : Regimen.t -> Regimen.t) :
  (forall x, Regimen.id (g x) = Regimen.id x) ->
  find (fun x => String.eqb (Regimen.id x) r)
    (map (fun x => if String.eqb (Regimen.id x) r then g x else x) l) =
  option_map g (find (fun x => String.eqb (Regimen.id x) r) l).
Proof.
  intros Hg. induction l as [|x l IH]; simpl; [reflexivity|].
  destruct (String.eqb (Regimen.id x) r) eqn:E; simpl.
  - rewrite Hg, E. reflexivity.
  - rewrite E. exact IH.
Qed.

(** One run of [markPillTaken] on an open database: the regimen update, the
    dose event, then the notification step, which fails and is caught. *)
Lemma markPillTaken_run (w : Store.World) (r : string) (T : Z) :
  Store.db_open w = true ->
  Store.markPillTaken r T w =
  (inr tt,
   Store.mkWorld true (Store.medications w)
     (map (fun x => if String.eqb (Regimen.id x) r
                    then Store.set_updatedAt (Store.clock w)
                           (Store.set_lastTakenAt (Some T) x)
                    else x) (Store.regimens w))
     (Store.constraints w)
     (Store.dose_events w ++
      [DoseEvent.mk (Store.uuid_string (Store.uuid_counter w)) r T (Some T)
         Taken (Some "user-marked"%string) (Store.clock w)])
     (Store.clock w) (S (Store.uuid_counter w))
     (Store.effects w ++
      [Store.SqlUpdateRegimens r ["lastTakenAt = ?"%string];
       Store.SqlInsertDoseEvent (Store.uuid_string (Store.uuid_counter w));
       Store.ConsoleError "Error scheduling notifications:"%string])).
Proof.
  intros H. destruct w; simpl in H; subst. cbn. rewrite <- !app_assoc.
  reflexivity.
Qed.

Lemma find_after_mark (w : Store.World) (r : string) (T : Z) (reg : Regimen.t) :
  Store.db_open w = true -> Store.find_regimen w r = Some reg ->
  Store.find_regimen (snd (Store.markPillTaken r T w)) r =
  Some (Store.set_updatedAt (Store.clock w) (Store.set_lastTakenAt (Some T) reg)).
Proof.
  intros Hdb Hfind. rewrite (markPillTaken_run w r T Hdb).
  unfold Store.find_regimen in *. simpl.
  rewrite find_regimen_update by reflexivity. rewrite Hfind. reflexivity.
Qed.

Lemma last_indep {A} (l : list A) (d d' : A) : l <> [] -> last l d = last l d'.
Proof.
  induction l as [|x l IH]; [contradiction|]. intros _.
  destruct l as [|y l]; [reflexivity|].
  change (last (y :: l) d = last (y :: l) d'). apply IH. discriminate.
Qed.

Lemma last_cons {A} (x d : A) (l : list A) : last (x :: l) d = last l x.
Proof.
  destruct l as [|y l]; [reflexivity|].
  change (last (y :: l) d = last (y :: l) x). apply last_indep. discriminate.
Qed.

Lemma patched_row_fold (u : Store.RegimenPatch) (now : Z) (x : Regimen.t) :
  Store.set_updatedAt now
    (fold_left (fun r s => snd s r) (Store.regimen_sets u) x) =
  Store.patched_row u now x.
Proof.
  destruct u as [a b c d e f g h i j].
  destruct a, b, c, d, e, f, g, h, i, j; reflexivity.
Qed.

(** ** Sorting by due time *)

Lemma insert_by_due_perm (x : NextPill.NextPillCalculation) l :
  Permutation (NextPill.insert_by_due x l) (x :: l).
Proof.
  induction l as [|y l IH]; simpl; [reflexivity|].
  destruct (NextPill.nextDueTime x <=? NextPill.nextDueTime y); [reflexivity|].
  rewrite IH. apply perm_swap.
Qed.

Lemma sort_by_due_perm l : Permutation (NextPill.sort_by_due l) l.
Proof.
  induction l as [|x l IH]; simpl; [reflexivity|].
  rewrite insert_by_due_perm, IH. reflexivity.
Qed.

Lemma insert_by_due_hd (a x : NextPill.NextPillCalculation) l :
  HdRel NextPill.due_le a l -> NextPill.due_le a x -> HdRel NextPill.due_le a (NextPill.insert_by_due x l).
Proof.
  intros H Hx. destruct l as [|y l]; simpl; [constructor; exact Hx|].
  destruct (NextPill.nextDueTime x <=? NextPill.nextDueTime y); constructor.
  - exact Hx.
  - inversion H; assumption.
Qed.

Lemma insert_by_due_sorted (x : NextPill.NextPillCalculation) l :
  Sorted NextPill.due_le l -> Sorted NextPill.due_le (NextPill.insert_by_due x l).
Proof.
  induction l as [|y l IH]; simpl; intros H; [repeat constructor|].
  destruct (Z.leb_spec (NextPill.nextDueTime x) (NextPill.nextDueTime y)).
  - constructor; [exact H | constructor; exact H0].
  - inversion H as [|? ? Hl Hhd]; subst. constructor; [exact (IH Hl)|].
    apply insert_by_due_hd; [exact Hhd|]. unfold NextPill.due_le. lia.
Qed.

Lemma sort_by_due_sorted l : Sorted NextPill.due_le (NextPill.sort_by_due l).
Proof.
  induction l as [|x l IH]; simpl; [constructor|].
  apply insert_by_due_sorted. exact IH.
Qed.

(** ** C1: marking a dose taken *)



(** ** C5: the effects of marking a dose taken *)

(** C5 (a defect of the code): on an open database, [markPillTaken r T]
    persists the taken state first (the [lastTakenAt] update, then the dose
    event) and then schedules no reminder at all: the notification step calls
    [databaseService.getRegimen], which [DatabaseService] does not define, and
    the resulting [TypeError] is caught and only logged.  This holds for
    every regimen, with or without [intervalHours] and [afterFoodMinutes]
    constraints. *)
Theorem markPillTaken_effects (w : Store.World) (r : string) (T : Z) :
  Store.db_open w = true ->
  Store.effects (snd (Store.markPillTaken r T w)) =
  Store.effects w ++
    [Store.SqlUpdateRegimens r ["lastTakenAt = ?"%string];
     Store.SqlInsertDoseEvent (Store.uuid_string (Store.uuid_counter w));
     Store.ConsoleError "Error scheduling notifications:"%string].
Proof.
  intros Hdb. rewrite (markPillTaken_run w r T Hdb). reflexivity.
Qed.

Lemma markPillTaken_effects_witness :
  Store.db_open (Samples.sample_world [Samples.six_hourly None]
                   [Samples.after_food_30]) = true /\
  Store.effects (snd (Store.markPillTaken "reg-6h"%string Samples.oct4_0800
     (Samples.sample_world [Samples.six_hourly None] [Samples.after_food_30]))) =
  Store.effects (Samples.sample_world [Samples.six_hourly None]
                   [Samples.after_food_30]) ++
    [Store.SqlUpdateRegimens "reg-6h"%string ["lastTakenAt = ?"%string];
     Store.SqlInsertDoseEvent (Store.uuid_string
       (Store.uuid_counter (Samples.sample_world [Samples.six_hourly None]
                              [Samples.after_food_30])));
     Store.ConsoleError "Error scheduling notifications:"%string].
Proof.
  split; [reflexivity|].
  apply markPillTaken_effects. reflexivity.
Defined.

(** ** C8: [lastTakenAt] under repeated marking *)

(** C8 (as amended): each mark-taken event overwrites [lastTakenAt] with its
    taken timestamp, whatever the previous value: after marking regimen [r]
    taken at [T1], ..., [Tn] on an open database, [lastTakenAt] is [Tn]
    (unchanged when [n = 0]).  It therefore moves backward whenever a dose is
    marked at a timestamp earlier than the previous one. *)
Theorem mark_taken_sequence_last (Ts : list Z) :
  forall (w : Store.World) (r : string) (reg : Regimen.t),
  Store.db_open w = true -> Store.find_regimen w r = Some reg ->
  exists reg',
    Store.find_regimen (snd (Store.mark_taken_sequence r Ts w)) r = Some reg' /\
    Regimen.lastTakenAt reg' = last (map Some Ts) (Regimen.lastTakenAt reg).
Proof.
  induction Ts as [|T Ts IH]; intros w r reg Hdb Hfind.
  - exists reg. split; [exact Hfind | reflexivity].
  - unfold Store.mark_taken_sequence. cbn [Store.forEach].
    unfold Store.bind.
    pose proof (find_after_mark w r T reg Hdb Hfind) as Hf.
    rewrite (markPillTaken_run w r T Hdb) in Hf |- *.
    simpl snd in Hf. eapply IH in Hf; [|reflexivity].
    destruct Hf as [reg' [H1 H2]].
    exists reg'. split; [exact H1|]. rewrite H2. simpl map.
    rewrite last_cons. reflexivity.
Qed.

Lemma mark_taken_sequence_last_witness :
  (Store.db_open (Samples.sample_world [Samples.six_hourly (Some 2000)] [])
   = true /\
   Store.find_regimen (Samples.sample_world [Samples.six_hourly (Some 2000)] [])
     "reg-6h"%string = Some (Samples.six_hourly (Some 2000))) /\
  exists reg',
    Store.find_regimen (snd (Store.mark_taken_sequence "reg-6h"%string [3000; 1000]
      (Samples.sample_world [Samples.six_hourly (Some 2000)] []))) "reg-6h"%string
      = Some reg' /\
    Regimen.lastTakenAt reg' =
      last (map Some [3000; 1000])
        (Regimen.lastTakenAt (Samples.six_hourly (Some 2000))).
Proof.
  split; [split; reflexivity|].
  apply (mark_taken_sequence_last [3000; 1000]
           (Samples.sample_world [Samples.six_hourly (Some 2000)] [])
           "reg-6h"%string (Samples.six_hourly (Some 2000)));
    reflexivity.
Defined.

(** C8 fails as stated: a regimen last taken at 2000 ms, marked taken at
    1000 ms, ends with [lastTakenAt] = 1000, earlier than before. *)
Lemma lastTakenAt_backward_counterexample :
  exists reg',
    Store.find_regimen (snd (Store.markPillTaken "reg-6h"%string 1000
      (Samples.sample_world [Samples.six_hourly (Some 2000)] []))) "reg-6h"%string
      = Some reg' /\
    Regimen.lastTakenAt reg' = Some 1000 /\ 1000 < 2000.
Proof.
  eexists. split; [vm_compute; reflexivity|]. split; [reflexivity | lia].
Qed.

(** ** C10: updating a regimen *)

(** C10: [updateRegimen r] with the empty patch leaves the whole store
    unchanged (no row, no [updatedAt], no statement), and with a non-empty
    patch on an open database rewrites exactly the rows of regimen [r] into
    [patched_row]: the provided fields replaced, [updatedAt] set to the
    current time, every other field kept; nothing else changes but the one
    [UPDATE] statement issued. *)
Theorem updateRegimen_patch (r : string) (u : Store.RegimenPatch)
    (w : Store.World) :
  snd (Store.updateRegimen r Store.empty_patch w) = w /\
  (Store.db_open w = true -> Store.regimen_sets u <> [] ->
   Store.updateRegimen r u w =
   (inr tt,
    Store.mkWorld true (Store.medications w)
      (map (fun x => if String.eqb (Regimen.id x) r
                     then Store.patched_row u (Store.clock w) x else x)
           (Store.regimens w))
      (Store.constraints w) (Store.dose_events w) (Store.clock w)
      (Store.uuid_counter w)
      (Store.effects w ++
       [Store.SqlUpdateRegimens r (map fst (Store.regimen_sets u))]))).
Proof.
  split.
  - unfold Store.updateRegimen, Store.bind, Store.checkInitialized.
    destruct (Store.db_open w); reflexivity.
  - intros Hdb Hne.
    unfold Store.updateRegimen, Store.bind, Store.checkInitialized,
      Store.new_Date.
    rewrite Hdb. cbv zeta.
    destruct (Store.regimen_sets u) as [|s sets] eqn:E; [contradiction|].
    rewrite <- E. unfold Store.sql_update_regimens. rewrite Hdb.
    destruct w; simpl in Hdb |- *; subst.
    do 2 f_equal. apply map_ext. intros x.
    destruct (String.eqb (Regimen.id x) r); [|reflexivity].
    apply patched_row_fold.
Qed.

Lemma updateRegimen_patch_witness :
  (Store.db_open (Samples.sample_world [Samples.six_hourly None] []) = true /\
   Store.regimen_sets Samples.dose_patch <> []) /\
  Store.updateRegimen "reg-6h"%string Samples.dose_patch
    (Samples.sample_world [Samples.six_hourly None] []) =
  (inr tt,
   Store.mkWorld true
     (Store.medications (Samples.sample_world [Samples.six_hourly None] []))
     (map (fun x => if String.eqb (Regimen.id x) "reg-6h"%string
                    then Store.patched_row Samples.dose_patch
                           (Store.clock (Samples.sample_world
                                           [Samples.six_hourly None] [])) x
                    else x)
          (Store.regimens (Samples.sample_world [Samples.six_hourly None] [])))
     (Store.constraints (Samples.sample_world [Samples.six_hourly None] []))
     (Store.dose_events (Samples.sample_world [Samples.six_hourly None] []))
     (Store.clock (Samples.sample_world [Samples.six_hourly None] []))
     (Store.uuid_counter (Samples.sample_world [Samples.six_hourly None] []))
     (Store.effects (Samples.sample_world [Samples.six_hourly None] []) ++
      [Store.SqlUpdateRegimens "reg-6h"%string
         (map fst (Store.regimen_sets Samples.dose_patch))])).
Proof.
  split; [split; [reflexivity | vm_compute; discriminate]|].
  apply (proj2 (updateRegimen_patch "reg-6h"%string Samples.dose_patch
                  (Samples.sample_world [Samples.six_hourly None] [])));
    [reflexivity | vm_compute; discriminate].
Defined.

(** ** C4: weekly eligibility *)

(** C4 (a defect of the code): [shouldTakeOnDate] looks up the date's weekday
    name ("monday", ...) in [daysOfWeek], while the screens store weekday
    indices ("0" .. "6").  A weekly regimen with all seven indices selected is
    eligible on every date by the spec's rule, yet excluded on every date. *)
Theorem weekly_all_days_excluded (reg : Regimen.t) (date : Z) :
  Regimen.frequency reg = Weekly ->
  Regimen.daysOfWeek reg = Some Scheduling.all_days_selected ->
  Scheduling.shouldTakeOnDate reg date = false /\
  Scheduling.spec_weekly_eligible reg date = true.
Proof.
  intros Hf Hd.
  unfold Scheduling.shouldTakeOnDate, Scheduling.spec_weekly_eligible.
  cbv zeta. rewrite Hf, Hd.
  assert (H : 0 <= getDay date < 7) by (unfold getDay; apply Z.mod_pos_bound; lia).
  assert (Hc : getDay date = 0 \/ getDay date = 1 \/ getDay date = 2 \/
               getDay date = 3 \/ getDay date = 4 \/ getDay date = 5 \/
               getDay date = 6) by lia.
  destruct Hc as [E|[E|[E|[E|[E|[E|E]]]]]]; rewrite E; split; reflexivity.
Qed.

Lemma weekly_all_days_excluded_witness :
  (Regimen.frequency Samples.weekly_all_days = Weekly /\
   Regimen.daysOfWeek Samples.weekly_all_days
     = Some Scheduling.all_days_selected) /\
  Scheduling.shouldTakeOnDate Samples.weekly_all_days Samples.oct4_0800 = false /\
  Scheduling.spec_weekly_eligible Samples.weekly_all_days Samples.oct4_0800 = true.
Proof.
  split; [split; reflexivity|].
  apply weekly_all_days_excluded; reflexivity.
Defined.

(** ** C6: next-due time of a regimen already taken *)




(** ** C7: today's pills *)

(** C7 (as amended): [getTodaysPills] returns, up to order, exactly the
    calculations whose next-due time is at most the end of today, overdue
    ones (due before now) included, sorted by ascending next-due time. *)
Theorem getTodaysPills_spec (entries : list NextPill.RegimenEntry)
    (prefs : bool) (now : Z) :
  Permutation (NextPill.getTodaysPills entries prefs now)
    (filter (fun c => NextPill.nextDueTime c <=? local_at now 23 59 59 999)
       (NextPill.calculations entries prefs now)) /\
  (forall c, In c (NextPill.getTodaysPills entries prefs now) <->
             In c (NextPill.calculations entries prefs now) /\
             NextPill.nextDueTime c <= local_at now 23 59 59 999) /\
  Sorted NextPill.due_le (NextPill.getTodaysPills entries prefs now).
Proof.
  assert (Hp : Permutation (NextPill.getTodaysPills entries prefs now)
    (filter (fun c => NextPill.nextDueTime c <=? local_at now 23 59 59 999)
       (NextPill.calculations entries prefs now)))
    by (unfold NextPill.getTodaysPills; apply sort_by_due_perm).
  split; [exact Hp|]. split.
  - intros c. split.
    + intros H. apply (Permutation_in _ Hp), filter_In in H.
      destruct H as [H1 H2]. split; [exact H1 | apply Z.leb_le; exact H2].
    + intros [H1 H2]. apply (Permutation_in _ (Permutation_sym Hp)).
      apply filter_In. split; [exact H1 | apply Z.leb_le; exact H2].
  - unfold NextPill.getTodaysPills. apply sort_by_due_sorted.
Qed.

(** C7 fails as stated: a six-hourly regimen last taken eight hours ago is
    due two hours ago, before now, and is still returned. *)
Lemma todays_overdue_counterexample :
  let entries : list NextPill.RegimenEntry :=
    [("Aspirin"%string,
      Samples.six_hourly (Some (Samples.oct4_0800 - 8 * ms_per_hour)), [])] in
  exists c, In c (NextPill.getTodaysPills entries false Samples.oct4_0800) /\
            NextPill.nextDueTime c < Samples.oct4_0800 /\
            NextPill.spec_todays c Samples.oct4_0800 = false.
Proof.
  exists (NextPill.calculateNextDoseForRegimen "Aspirin"%string
            (Samples.six_hourly (Some (Samples.oct4_0800 - 8 * ms_per_hour)))
            [] false Samples.oct4_0800).
  split; [vm_compute; left; reflexivity|].
  split; vm_compute; reflexivity.
Qed.

(** ** MealTimingService.calculateMedicationTime *)

Lemma find_index_app {A} (p : A -> bool) (l1 l2 : list A) :
  MedTime.find_index p (l1 ++ l2) =
  match MedTime.find_index p l1 with
  | Some j => Some j
  | None => option_map (Nat.add (List.length l1)) (MedTime.find_index p l2)
  end.
Proof.
  induction l1 as [|x l1 IH]; simpl.
  - destruct (MedTime.find_index p l2); reflexivity.
  - destruct (p x); [reflexivity|]. rewrite IH.
    destruct (MedTime.find_index p l1); [reflexivity|].
    destruct (MedTime.find_index p l2); reflexivity.
Qed.

Lemma find_index_lt {A} (p : A -> bool) (l : list A) (j : nat) :
  MedTime.find_index p l = Some j -> (j < List.length l)%nat.
Proof.
  revert j. induction l as [|x l IH]; simpl; intros j H; [discriminate|].
  destruct (p x); [injection H as <-; lia|].
  destruct (MedTime.find_index p l) as [j'|]; [|discriminate].
  simpl in H. injection H as <-. specialize (IH j' eq_refl). lia.
Qed.

Lemma find_index_time_none (t : Z) (l : list MedicationSchedule.t) :
  ~ In t (Clamp.times l) ->
  MedTime.find_index (fun s => MedicationSchedule.scheduledTime s =? t) l = None.
Proof.
  induction l as [|x l IH]; simpl; intros H; [reflexivity|].
  destruct (Z.eqb_spec (MedicationSchedule.scheduledTime x) t).
  - exfalso. apply H. left. exact e.
  - rewrite IH; [reflexivity|]. intros H'. apply H. right. exact H'.
Qed.

Lemma find_index_time_some (t : Z) (l : list MedicationSchedule.t) :
  In t (Clamp.times l) ->
  exists j, MedTime.find_index (fun s => MedicationSchedule.scheduledTime s =? t) l = Some j.
Proof.
  induction l as [|x l IH]; simpl; intros H; [contradiction|].
  destruct (Z.eqb_spec (MedicationSchedule.scheduledTime x) t); [eauto|].
  destruct H as [H|H]; [contradiction|].
  destruct (IH H) as [j Hj]. rewrite Hj. simpl. eauto.
Qed.

Lemma existsb_eqb_In (t : Z) (seen : list Z) :
  existsb (Z.eqb t) seen = true <-> In t seen.
Proof.
  rewrite existsb_exists. split.
  - intros [x [Hx E]]. apply Z.eqb_eq in E. subst. exact Hx.
  - intros H. exists t. split; [exact H | apply Z.eqb_refl].
Qed.

Lemma first_occurrences_ext (s1 s2 : list Z) l :
  (forall z, In z s1 <-> In z s2) ->
  MedTime.first_occurrences s1 l = MedTime.first_occurrences s2 l.
Proof.
  revert s1 s2. induction l as [|x l IH]; intros s1 s2 Hs; simpl; [reflexivity|].
  destruct (existsb (Z.eqb _) s1) eqn:E1, (existsb (Z.eqb _) s2) eqn:E2.
  - apply IH. exact Hs.
  - apply existsb_eqb_In, Hs, existsb_eqb_In in E1. congruence.
  - apply existsb_eqb_In, Hs, existsb_eqb_In in E2. congruence.
  - f_equal. apply IH. intros z. simpl. rewrite Hs. reflexivity.
Qed.

(** The index filter, started at position [length p] of [p ++ l]. *)
Lemma unique_by_time_aux (p l : list MedicationSchedule.t) :
  map fst
    (filter (fun '(schedule, index) =>
               match MedTime.find_index
                       (fun s => MedicationSchedule.scheduledTime s
                                 =? MedicationSchedule.scheduledTime schedule)
                       (p ++ l) with
               | Some j => Nat.eqb index j
               | None => false
               end)
            (combine l (seq (List.length p) (List.length l))))
  = MedTime.first_occurrences (Clamp.times p) l.
Proof.
  revert p. induction l as [|x l IH]; intros p; simpl; [reflexivity|].
  set (t := MedicationSchedule.scheduledTime x).
  assert (Hp : List.length (p ++ [x]) = S (List.length p))
    by (rewrite length_app; simpl; lia).
  assert (Happ : p ++ x :: l = (p ++ [x]) ++ l) by (rewrite <- app_assoc; reflexivity).
  destruct (in_dec Z.eq_dec t (Clamp.times p)) as [Hin|Hnin].
  - destruct (find_index_time_some t p Hin) as [j Hj].
    rewrite find_index_app, Hj.
    pose proof (find_index_lt _ _ _ Hj) as Hlt.
    replace (Nat.eqb (List.length p) j) with false
      by (symmetry; apply Nat.eqb_neq; lia).
    replace (existsb (Z.eqb t) (Clamp.times p)) with true
      by (symmetry; apply existsb_eqb_In; exact Hin).
    rewrite Happ, <- Hp, IH. apply first_occurrences_ext.
    intros z. unfold Clamp.times. rewrite map_app, in_app_iff. simpl.
    split; [intros [H|[H|[]]]; [exact H | subst; exact Hin] | intros H; left; exact H].
  - rewrite find_index_app, (find_index_time_none t p Hnin). simpl.
    rewrite Z.eqb_refl. simpl. rewrite Nat.add_0_r, Nat.eqb_refl. simpl.
    replace (existsb (Z.eqb t) (Clamp.times p)) with false
      by (symmetry; apply not_true_iff_false; rewrite existsb_eqb_In; exact Hnin).
    f_equal. rewrite Happ, <- Hp, IH. apply first_occurrences_ext.
    intros z. unfold Clamp.times. rewrite map_app, in_app_iff. simpl. tauto.
Qed.

Lemma unique_by_time_first (l : list MedicationSchedule.t) :
  MedTime.unique_by_time l = MedTime.first_occurrences [] l.
Proof. exact (unique_by_time_aux [] l). Qed.

Lemma first_occurrences_times (seen : list Z) l :
  NoDup (Clamp.times (MedTime.first_occurrences seen l)) /\
  (forall t, In t (Clamp.times (MedTime.first_occurrences seen l))
             <-> In t (Clamp.times l) /\ ~ In t seen) /\
  incl (MedTime.first_occurrences seen l) l.
Proof.
  revert seen. induction l as [|x l IH]; intros seen; simpl.
  - split; [constructor|]. split; [tauto|]. intros a []. 
  - destruct (existsb (Z.eqb _) seen) eqn:E.
    + apply existsb_eqb_In in E. destruct (IH seen) as [H1 [H2 H3]].
      split; [exact H1|]. split; [|intros a Ha; right; apply H3, Ha].
      intros t. rewrite H2. split; [tauto|].
      intros [[Ht|Ht] Hs]; [subst; contradiction | tauto].
    + assert (E' : ~ In (MedicationSchedule.scheduledTime x) seen)
        by (rewrite <- existsb_eqb_In, E; discriminate).
      destruct (IH (MedicationSchedule.scheduledTime x :: seen)) as [H1 [H2 H3]].
      split; [|split].
      * constructor; [|exact H1]. rewrite H2. simpl. tauto.
      * intros t. simpl. rewrite H2. simpl.
        split; [intros [Ht|Ht]; [subst; tauto | tauto]|].
        intros [[Ht|Ht] Hs]; [left; exact Ht|].
        destruct (Z.eq_dec (MedicationSchedule.scheduledTime x) t); [left; exact e|].
        right. split; [exact Ht|]. intros [H|H]; [contradiction | exact (Hs H)].
      * intros a [Ha|Ha]; [left; exact Ha | right; apply H3, Ha].
Qed.

Lemma insert_by_time_perm (x : MedicationSchedule.t) l :
  Permutation (MedTime.insert_by_time x l) (x :: l).
Proof.
  induction l as [|y l IH]; simpl; [reflexivity|].
  destruct (_ <=? _); [reflexivity|]. rewrite IH. apply perm_swap.
Qed.

Lemma sort_by_time_perm l : Permutation (MedTime.sort_by_time l) l.
Proof.
  induction l as [|x l IH]; simpl; [reflexivity|].
  rewrite insert_by_time_perm, IH. reflexivity.
Qed.

Lemma insert_by_time_sorted (x : MedicationSchedule.t) l :
  Sorted Z.le (Clamp.times l) -> Sorted Z.le (Clamp.times (MedTime.insert_by_time x l)).
Proof.
  induction l as [|y l IH]; simpl; intros H; [repeat constructor|].
  destruct (Z.leb_spec (MedicationSchedule.scheduledTime x) (MedicationSchedule.scheduledTime y)).
  - constructor; [exact H | constructor; exact H0].
  - inversion H as [|? ? Hl Hhd]; subst. constructor; [exact (IH Hl)|].
    destruct l as [|z l]; simpl; [constructor; lia|].
    destruct (_ <=? _); constructor; [lia|]. inversion Hhd; assumption.
Qed.

Lemma sort_by_time_sorted l : Sorted Z.le (Clamp.times (MedTime.sort_by_time l)).
Proof.
  induction l as [|x l IH]; simpl; [constructor|].
  apply insert_by_time_sorted. exact IH.
Qed.

Lemma sorted_le_nodup_lt (l : list Z) : Sorted Z.le l -> NoDup l -> Sorted Z.lt l.
Proof.
  induction l as [|x l IH]; intros Hs Hn; [constructor|].
  inversion Hs as [|? ? Hl Hhd]; subst. inversion Hn as [|? ? Hx Hn']; subst.
  constructor; [exact (IH Hl Hn')|].
  destruct l as [|y l]; constructor. inversion Hhd; subst.
  assert (x <> y) by (intros ->; apply Hx; left; reflexivity). lia.
Qed.

Lemma calculateMedicationTime_perm c mt d :
  Permutation (MedTime.calculateMedicationTime c mt d)
    (MedTime.first_occurrences [] (Clamp.clamp c d (MedTime.candidates c mt))).
Proof.
  unfold MedTime.calculateMedicationTime. rewrite unique_by_time_first.
  apply sort_by_time_perm.
Qed.

Lemma calculateMedicationTime_props (c : Constraints.t)
    (mealTimes : MedTime.MealTiming) (targetDate : Z) :
  let result := MedTime.calculateMedicationTime c mealTimes targetDate in
  let clamped := Clamp.clamp c targetDate (MedTime.candidates c mealTimes) in
  Sorted Z.lt (Clamp.times result) /\
  (forall t, In t (Clamp.times result) <-> In t (Clamp.times clamped)) /\
  incl result clamped.
Proof.
  cbv zeta. pose proof (calculateMedicationTime_perm c mealTimes targetDate) as P.
  destruct (first_occurrences_times []
              (Clamp.clamp c targetDate (MedTime.candidates c mealTimes)))
    as [H1 [H2 H3]].
  assert (Pt := Permutation_map MedicationSchedule.scheduledTime P).
  split; [|split].
  - apply sorted_le_nodup_lt.
    + apply sort_by_time_sorted.
    + eapply Permutation_NoDup; [symmetry; exact Pt | exact H1].
  - intros t. split; intros H.
    + apply (Permutation_in _ Pt), H2 in H. tauto.
    + apply (Permutation_in _ (Permutation_sym Pt)), H2. simpl. tauto.
  - intros a Ha. apply H3. exact (Permutation_in _ P Ha).
Qed.


Lemma calculateMedicationTime_times_in c mt d t :
  In t (Clamp.times (MedTime.calculateMedicationTime c mt d)) ->
  exists t0, In t0 (Clamp.times (MedTime.candidates c mt)) /\
    t = Clamp.lower_to (Clamp.bound_of (Constraints.latestTime c) d)
          (Clamp.raise_to (Clamp.bound_of (Constraints.earliestTime c) d) t0).
Proof.
  intros H. destruct (calculateMedicationTime_props c mt d) as [_ [H2 _]].
  apply H2 in H. rewrite times_clamp, in_map_iff in H.
  destruct H as [t0 [E Ht0]]. exists t0. split; [exact Ht0 | symmetry; exact E].
Qed.

(** When both the earliest and the latest time of the constraint are
    valid clock times and the earliest is not after the latest, every
    schedule [calculateMedicationTime] returns lies between them. *)
Theorem calculateMedicationTime_within_bounds (c : Constraints.t)
    (mealTimes : MedTime.MealTiming) (targetDate E L : Z) :
  Clamp.bound_of (Constraints.earliestTime c) targetDate = Some E ->
  Clamp.bound_of (Constraints.latestTime c) targetDate = Some L ->
  E <= L ->
  Forall (fun t => E <= t <= L)
    (Clamp.times (MedTime.calculateMedicationTime c mealTimes targetDate)).
Proof.
  intros HE HL HEL. apply Forall_forall. intros t Ht.
  destruct (calculateMedicationTime_times_in _ _ _ _ Ht) as [t0 [_ ->]].
  rewrite HE, HL, raise_to_max, lower_to_min. lia.
Qed.

(** When the earliest time of the constraint is after its latest time,
    every candidate is moved to the latest time, so
    [calculateMedicationTime] returns at most one schedule, at that time. *)
Theorem calculateMedicationTime_inverted_bounds (c : Constraints.t)
    (mealTimes : MedTime.MealTiming) (targetDate E L : Z) :
  Clamp.bound_of (Constraints.earliestTime c) targetDate = Some E ->
  Clamp.bound_of (Constraints.latestTime c) targetDate = Some L ->
  L < E ->
  Clamp.times (MedTime.calculateMedicationTime c mealTimes targetDate) = []
  \/ Clamp.times (MedTime.calculateMedicationTime c mealTimes targetDate) = [L].
Proof.
  intros HE HL HLE.
  destruct (calculateMedicationTime_props c mealTimes targetDate)
    as [Hs [_ _]].
  assert (Hall : forall t, In t (Clamp.times (MedTime.calculateMedicationTime c mealTimes targetDate)) -> t = L).
  { intros t Ht. destruct (calculateMedicationTime_times_in _ _ _ _ Ht) as [t0 [_ ->]].
    rewrite HE, HL, raise_to_max, lower_to_min. lia. }
  destruct (Clamp.times _) as [|a [|b l]]; [left; reflexivity| |].
  - right. rewrite (Hall a (or_introl eq_refl)). reflexivity.
  - exfalso. inversion Hs as [|? ? _ Hhd]; subst. inversion Hhd; subst.
    rewrite (Hall a), (Hall b) in H0 by (simpl; tauto). lia.
Qed.

(** ** NextPillService.calculateTimesPerDayNextDose *)

Lemma day_start_shift (t : Z) : day_start (t + ms_per_day) = day_start t + ms_per_day.
Proof.
  unfold day_start. replace (t + ms_per_day) with (t + 1 * ms_per_day) by lia.
  rewrite Z_mod_plus_full. lia.
Qed.

Lemma first_dose_after_cases (l : list Q) (c : Z) (d : Q) :
  NextPill.first_dose_after l c d = d \/
  (In (NextPill.first_dose_after l c d) l /\
   (inject_Z c < NextPill.first_dose_after l c d)%Q).
Proof.
  induction l as [|x l IH]; simpl; [left; reflexivity|].
  destruct (Qlt_bool (inject_Z c) x) eqn:E.
  - right. split; [left; reflexivity|].
    unfold Qlt_bool in E. apply negb_true_iff in E.
    apply Qnot_le_lt. intros H. apply Qle_bool_iff in H. congruence.
  - destruct IH as [IH|[IH1 IH2]]; [left; exact IH | right; split; [right; exact IH1 | exact IH2]].
Qed.

(** The dose hours [wakeTime + i * (awakeHours / timesPerDay)] lie in
    [7, 22). *)
Lemma dose_hours_window (k : Z) (x : Q) :
  1 <= k ->
  In x (map (fun i => (inject_Z 7 + inject_Z (Z.of_nat i) * (inject_Z (22 - 7) / inject_Z k))%Q)
            (seq 0 (Z.to_nat k))) ->
  (inject_Z 7 <= x)%Q /\ (x < inject_Z 22)%Q.
Proof.
  intros Hk Hx. apply in_map_iff in Hx. destruct Hx as [i [<- Hi]].
  apply in_seq in Hi. destruct k as [|p|p]; try lia.
  assert (Hi' : Z.of_nat i < Z.pos p) by lia.
  cbv [Qle Qlt Qplus Qmult Qdiv Qinv inject_Z Qnum Qden].
  rewrite ?Pos2Z.inj_mul. split; nia.
Qed.

Lemma getHours_bounds (t : Z) : 0 <= getHours t <= 23.
Proof.
  unfold getHours, ms_per_day, ms_per_hour.
  pose proof (Z.mod_pos_bound t 86400000). split.
  - apply Z.div_pos; lia.
  - apply Z.lt_succ_r, Z.div_lt_upper_bound; lia.
Qed.

(** An hour [nextHour] in [7, 22) later than the current hour, turned into
    [setHours(floor(nextHour), (nextHour % 1) * 60, 0, 0)]. *)
Lemma set_next_hour_bounds (t c : Z) (q : Q) :
  (inject_Z c < q)%Q -> (q < inject_Z 22)%Q ->
  day_start t + c * ms_per_hour
  <= local_at t (Qfloor q) (time_clip ((q - inject_Z (Qfloor q)) * 60)%Q) 0 0
  < day_start t + 22 * ms_per_hour.
Proof.
  intros Hc H22.
  assert (HcH : c <= Qfloor q).
  { rewrite <- (Qfloor_Z c). apply Qfloor_resp_le. apply Qlt_le_weak. exact Hc. }
  assert (HH : Qfloor q < 22).
  { rewrite Zlt_Qlt. apply Qle_lt_trans with q; [apply Qfloor_le | exact H22]. }
  pose proof (Qfloor_le q) as Hfl. pose proof (Qlt_floor q) as Hfu.
  rewrite inject_Z_plus in Hfu.
  assert (Hf0 : (0 <= (q - inject_Z (Qfloor q)) * 60)%Q) by lra.
  assert (Hf1 : ((q - inject_Z (Qfloor q)) * 60 < inject_Z 60)%Q).
  { change (inject_Z 1) with 1%Q in Hfu. change (inject_Z 60) with 60%Q. lra. }
  rewrite time_clip_nonneg by exact Hf0.
  assert (HM0 : 0 <= Qfloor ((q - inject_Z (Qfloor q)) * 60)).
  { rewrite <- (Qfloor_Z 0). apply Qfloor_resp_le. exact Hf0. }
  assert (HM1 : Qfloor ((q - inject_Z (Qfloor q)) * 60) < 60).
  { rewrite Zlt_Qlt. apply Qle_lt_trans with ((q - inject_Z (Qfloor q)) * 60)%Q;
      [apply Qfloor_le | exact Hf1]. }
  unfold local_at, ms_per_hour in *. lia.
Qed.

(** For [timesPerDay >= 1], [calculateTimesPerDayNextDose] returns either
    07:00 on the day after [fromTime] or a time on the day of [fromTime]
    that is not before the start of [fromTime]'s hour and is before 22:00. *)
Theorem calculateTimesPerDayNextDose_range (timesPerDay fromTime : Z) :
  1 <= timesPerDay ->
  let r := NextPill.calculateTimesPerDayNextDose timesPerDay fromTime in
  r = day_start fromTime + ms_per_day + 7 * ms_per_hour \/
  (day_start fromTime + getHours fromTime * ms_per_hour <= r
   < day_start fromTime + 22 * ms_per_hour).
Proof.
  intros Hk. cbv zeta. unfold NextPill.calculateTimesPerDayNextDose. cbv zeta.
  match goal with
  | |- context [NextPill.first_dose_after ?l ?c ?d] =>
      destruct (first_dose_after_cases l c d) as [E|[Hin Hlt]];
      set (q := NextPill.first_dose_after l c d) in *
  end.
  - destruct (Qle_bool q (inject_Z (getHours fromTime))) eqn:Hle.
    + left. unfold local_at. rewrite day_start_shift. lia.
    + right. apply set_next_hour_bounds.
      * apply Qnot_le_lt. intros H. apply Qle_bool_iff in H. congruence.
      * rewrite E. reflexivity.
  - destruct (Qle_bool q (inject_Z (getHours fromTime))) eqn:Hle.
    + left. unfold local_at. rewrite day_start_shift. lia.
    + right. apply set_next_hour_bounds; [exact Hlt|].
      exact (proj2 (dose_hours_window timesPerDay q Hk Hin)).
Qed.

(** [calculateTimesPerDayNextDose] with [timesPerDay >= 1] gives 07:00 of
    the same day when called before 07:00, and 07:00 of the next day when
    called at 22:00 or later. *)
Theorem calculateTimesPerDayNextDose_edges (timesPerDay fromTime : Z) :
  1 <= timesPerDay ->
  (getHours fromTime < 7 ->
   NextPill.calculateTimesPerDayNextDose timesPerDay fromTime
   = day_start fromTime + 7 * ms_per_hour) /\
  (22 <= getHours fromTime ->
   NextPill.calculateTimesPerDayNextDose timesPerDay fromTime
   = day_start fromTime + ms_per_day + 7 * ms_per_hour).
Proof.
  intros Hk. unfold NextPill.calculateTimesPerDayNextDose. cbv zeta. split; intros Hh.
  - replace (Z.to_nat timesPerDay) with (S (Z.to_nat (timesPerDay - 1))) by lia.
    cbn [seq map NextPill.first_dose_after].
    set (q0 := (inject_Z 7 + inject_Z (Z.of_nat 0) * _)%Q).
    assert (Hq0 : (q0 == inject_Z 7)%Q) by (unfold q0; simpl; ring).
    assert (Hlt : Qlt_bool (inject_Z (getHours fromTime)) q0 = true).
    { unfold Qlt_bool. apply negb_true_iff, not_true_iff_false. intros H.
      apply Qle_bool_iff in H. rewrite Hq0 in H. rewrite <- Zle_Qle in H. lia. }
    rewrite Hlt.
    assert (Hle : Qle_bool q0 (inject_Z (getHours fromTime)) = false).
    { apply not_true_iff_false. intros H. apply Qle_bool_iff in H.
      rewrite Hq0 in H. rewrite <- Zle_Qle in H. lia. }
    rewrite Hle. rewrite (Qfloor_comp _ _ Hq0), Qfloor_Z.
    rewrite (time_clip_comp _ (inject_Z 0)).
    + rewrite time_clip_Z. unfold local_at. lia.
    + rewrite Hq0. ring.
  - assert (Hd : NextPill.first_dose_after
                   (map (fun i => (inject_Z 7 + inject_Z (Z.of_nat i) *
                                   (inject_Z (22 - 7) / inject_Z timesPerDay))%Q)
                        (seq 0 (Z.to_nat timesPerDay)))
                   (getHours fromTime) (inject_Z 7) = inject_Z 7).
    { destruct (first_dose_after_cases
                  (map (fun i => (inject_Z 7 + inject_Z (Z.of_nat i) *
                                  (inject_Z (22 - 7) / inject_Z timesPerDay))%Q)
                       (seq 0 (Z.to_nat timesPerDay)))
                  (getHours fromTime) (inject_Z 7)) as [E|[Hin Hlt]]; [exact E|].
      exfalso. destruct (dose_hours_window _ _ Hk Hin) as [_ H22].
      assert (H := Qlt_trans _ _ _ Hlt H22). rewrite <- Zlt_Qlt in H. lia. }
    rewrite Hd.
    replace (Qle_bool (inject_Z 7) (inject_Z (getHours fromTime))) with true.
    + unfold local_at. rewrite day_start_shift. lia.
    + symmetry. apply Qle_bool_iff. rewrite <- Zle_Qle. lia.
Qed.

(** ** NextPillService: the calculation of one regimen, getNextPill *)

(** A regimen whose dose cannot be taken yet is never reported overdue:
    its next-due time lies after [now], [isOverdue] is false and
    [minutesOverdue] is absent. *)
Theorem calculateNextDose_not_takeable_not_overdue (name : string)
    (reg : Regimen.t) (cs : list Constraints.t) (prefs : bool) (now : Z) :
  let c := NextPill.calculateNextDoseForRegimen name reg cs prefs now in
  NextPill.canTake c = false ->
  now < NextPill.nextDueTime c /\ NextPill.isOverdue c = false /\
  NextPill.minutesOverdue c = None.
Proof.
  cbv zeta. intros Hc.
  assert (Hdue : now < NextPill.nextDueTime
                         (NextPill.calculateNextDoseForRegimen name reg cs prefs now)).
  { rewrite calculateNextDose_due.
    unfold NextPill.calculateNextDoseForRegimen, NextPill.canTakeNow in Hc.
    cbn [NextPill.canTake] in Hc.
    unfold NextPill.calculateIntervalBasedNextDose.
    destruct (Regimen.lastTakenAt reg) as [l|]; [|discriminate].
    destruct (Regimen.intervalHours reg) as [h|]; [|discriminate].
    destruct (truthy_Q (Some h)); [|discriminate].
    apply negb_false_iff, Z.ltb_lt in Hc. exact Hc. }
  split; [exact Hdue|].
  revert Hdue. unfold NextPill.calculateNextDoseForRegimen. cbv zeta.
  cbn [NextPill.nextDueTime NextPill.isOverdue NextPill.minutesOverdue].
  intros Hdue. replace (_ <? now) with false by (symmetry; apply Z.ltb_ge; lia).
  split; reflexivity.
Qed.


(** ** MealTimingService: the schedules of a day and the next one *)











(** Once user preferences are loaded, the constraints of the regimens have
    no effect on [getMedicationSchedulesForDate]: the result is the one for
    the same regimens without constraints. *)
Theorem getMedicationSchedulesForDate_ignores_constraints
    (entries : list DaySchedule.DayEntry) (p : DaySchedule.UserPrefs) (date : Z) :
  DaySchedule.getMedicationSchedulesForDate entries (Some p) date =
  DaySchedule.getMedicationSchedulesForDate
    (map (fun e => (fst e, [])) entries) (Some p) date.
Proof.
  unfold DaySchedule.getMedicationSchedulesForDate.
  enough (E : DaySchedule.schedules_loop entries (Some p) date =
              DaySchedule.schedules_loop (map (fun e => (fst e, [])) entries) (Some p) date)
    by (rewrite E; reflexivity).
  induction entries as [|[r cs] rest IH]; simpl; [reflexivity|].
  destruct (MealTiming.generateRegimenBaseSchedule r date); [|reflexivity].
  rewrite IH. destruct cs; reflexivity.
Qed.







(** ** DatabaseService and markPillTaken: edge behaviour *)

(** On a closed database, [markPillTaken] rejects with the
    "Database not initialized" error, after logging
    "Error marking pill taken:"; it writes nothing to the database. *)
Theorem markPillTaken_closed_db (w : Store.World) (r : string) (T : Z) :
  Store.db_open w = false ->
  Store.markPillTaken r T w =
  (inl (Store.JsError "Database not initialized. Call init() first."%string),
   Store.mkWorld false (Store.medications w) (Store.regimens w)
     (Store.constraints w) (Store.dose_events w) (Store.clock w)
     (Store.uuid_counter w)
     (Store.effects w ++ [Store.ConsoleError "Error marking pill taken:"%string])).
Proof. intros H. destruct w; simpl in H; subst. reflexivity. Qed.

(** [markPillTaken r] on an open database changes no regimen row whose id
    is not [r], nor the medications and constraints, and keeps the earlier
    dose events as a prefix. *)
Theorem markPillTaken_frame (w : Store.World) (r : string) (T : Z) :
  Store.db_open w = true ->
  let w' := snd (Store.markPillTaken r T w) in
  filter (fun x => negb (String.eqb (Regimen.id x) r)) (Store.regimens w')
  = filter (fun x => negb (String.eqb (Regimen.id x) r)) (Store.regimens w) /\
  Store.medications w' = Store.medications w /\
  Store.constraints w' = Store.constraints w /\
  exists ev, Store.dose_events w' = Store.dose_events w ++ [ev].
Proof.
  intros H. cbv zeta. rewrite (markPillTaken_run w r T H). simpl.
  split; [|split; [reflexivity | split; [reflexivity | eexists; reflexivity]]].
  induction (Store.regimens w) as [|x l IH]; simpl; [reflexivity|].
  destruct (String.eqb (Regimen.id x) r) eqn:E; simpl.
  - unfold Store.set_updatedAt, Store.set_lastTakenAt at 1. simpl. rewrite E. exact IH.
  - rewrite E. simpl. f_equal. exact IH.
Qed.

(** [markPillTaken] does not check that the regimen exists: for an id no
    regimen has, on an open database, it succeeds, leaves the regimens as
    they are and still records a taken dose event for that id. *)
Theorem markPillTaken_unknown_regimen (w : Store.World) (r : string) (T : Z) :
  Store.db_open w = true -> Store.find_regimen w r = None ->
  fst (Store.markPillTaken r T w) = inr tt /\
  Store.regimens (snd (Store.markPillTaken r T w)) = Store.regimens w /\
  exists ev, Store.dose_events (snd (Store.markPillTaken r T w))
             = Store.dose_events w ++ [ev] /\
    DoseEvent.regimenId ev = r /\ DoseEvent.status ev = Taken /\
    DoseEvent.takenAt ev = Some T.
Proof.
  intros H Hnone. rewrite (markPillTaken_run w r T H). simpl.
  split; [reflexivity|]. split; [|eexists; repeat split].
  unfold Store.find_regimen in Hnone.
  induction (Store.regimens w) as [|x l IH]; simpl in *; [reflexivity|].
  destruct (String.eqb (Regimen.id x) r); [discriminate|]. f_equal. exact (IH Hnone).
Qed.

(** [updateRegimen] with no field to update issues no SQL statement and
    leaves the row's [updatedAt] untouched: on an open database it changes
    nothing at all; on a closed one it rejects. *)
Theorem updateRegimen_empty_patch (w : Store.World) (r : string) :
  Store.updateRegimen r Store.empty_patch w =
  if Store.db_open w then (inr tt, w)
  else (inl (Store.JsError "Database not initialized. Call init() first."%string), w).
Proof. destruct w as [[] ? ? ? ? ? ? ?]; reflexivity. Qed.

(** ** NextPillScreen: the countdown *)

Lemma string_length_app (s1 s2 : string) :
  String.length (s1 ++ s2) = (String.length s1 + String.length s2)%nat.
Proof. induction s1 as [|c s1 IH]; simpl; [reflexivity | rewrite IH; reflexivity]. Qed.

Lemma string_app_assoc (s1 s2 s3 : string) :
  ((s1 ++ s2) ++ s3)%string = (s1 ++ (s2 ++ s3))%string.
Proof. induction s1 as [|c s1 IH]; simpl; [reflexivity | rewrite IH; reflexivity]. Qed.

Lemma ends_m_not_overdue (s : string) : (s ++ "m")%string <> "Overdue"%string.
Proof.
  intros E.
  assert (Hl : String.length s = 6%nat).
  { apply (f_equal String.length) in E. rewrite string_length_app in E.
    simpl in E. lia. }
  pose proof (append_correct2 s "m" 0) as H. rewrite E, Hl in H. discriminate.
Qed.

Lemma getTimeUntil_overdue_iff (scheduledTime now : Z) :
  Screen.getTimeUntil scheduledTime now = "Overdue"%string <->
  Screen.isOverdue scheduledTime now = true.
Proof.
  unfold Screen.getTimeUntil, Screen.isOverdue. cbv zeta.
  destruct (Z.ltb_spec (Screen.today_at scheduledTime now - now) 0) as [Hd|Hd];
  destruct (Z.ltb_spec (Screen.today_at scheduledTime now) now); try lia.
  - tauto.
  - split; [|discriminate]. intros E.
    destruct (0 <? _).
    + rewrite <- !string_app_assoc in E. exact (False_ind _ (ends_m_not_overdue _ E)).
    + exact (False_ind _ (ends_m_not_overdue _ E)).
Qed.

(** [getTimeUntil] shows "Overdue" exactly when [isOverdue] holds, and a
    time for which [isUpcoming] holds is never overdue. *)
Theorem screen_overdue_consistent (scheduledTime now : Z) :
  (Screen.getTimeUntil scheduledTime now = "Overdue"%string <->
   Screen.isOverdue scheduledTime now = true) /\
  (Screen.isUpcoming scheduledTime now = true ->
   Screen.isOverdue scheduledTime now = false).
Proof.
  split; [apply getTimeUntil_overdue_iff|].
  unfold Screen.isUpcoming, Screen.isOverdue. cbv zeta. intros H.
  apply andb_true_iff in H. destruct H as [H _]. apply Z.ltb_lt in H.
  apply Z.ltb_ge. lia.
Qed.

(** The countdown helpers read only the time of day of the scheduled
    time: moving it by whole days changes none of [getTimeUntil],
    [isOverdue] and [isUpcoming]. *)
Theorem screen_time_of_day_only (scheduledTime now n : Z) :
  Screen.getTimeUntil (scheduledTime + n * ms_per_day) now
    = Screen.getTimeUntil scheduledTime now /\
  Screen.isOverdue (scheduledTime + n * ms_per_day) now
    = Screen.isOverdue scheduledTime now /\
  Screen.isUpcoming (scheduledTime + n * ms_per_day) now
    = Screen.isUpcoming scheduledTime now.
Proof.
  assert (E : Screen.today_at (scheduledTime + n * ms_per_day) now
              = Screen.today_at scheduledTime now).
  { unfold Screen.today_at, getHours, Screen.getMinutes.
    rewrite Z_mod_plus_full.
    replace (scheduledTime + n * ms_per_day) with (scheduledTime + (n * 24) * ms_per_hour)
      by (unfold ms_per_day, ms_per_hour; lia).
    rewrite Z_mod_plus_full. reflexivity. }
  unfold Screen.getTimeUntil, Screen.isOverdue, Screen.isUpcoming. rewrite E.
  repeat split.
Qed.

(** When the dose is not overdue, [getTimeUntil] shows a countdown of
    [hours] (0 to 23, left out when 0) and [minutes] (0 to 59): the
    scheduled time of day is never more than a day ahead. *)
Theorem getTimeUntil_countdown (scheduledTime now : Z) :
  Screen.isOverdue scheduledTime now = false ->
  exists hours minutes, 0 <= hours <= 23 /\ 0 <= minutes <= 59 /\
    Screen.getTimeUntil scheduledTime now =
    (if (0 <? hours)%Z
     then MedTime.js_int_string hours ++ "h " ++ MedTime.js_int_string minutes ++ "m"
     else MedTime.js_int_string minutes ++ "m")%string.
Proof.
  unfold Screen.isOverdue, Screen.getTimeUntil. intros H. apply Z.ltb_ge in H. cbv zeta.
  replace (Screen.today_at scheduledTime now - now <? 0) with false
    by (symmetry; apply Z.ltb_ge; lia).
  set (diff := Screen.today_at scheduledTime now - now).
  exists (diff / (1000 * 60 * 60)), (diff mod (1000 * 60 * 60) / (1000 * 60)).
  split; [|split; [|reflexivity]].
  - assert (Hd : diff < 24 * 3600000).
    { unfold diff, Screen.today_at, Screen.getMinutes, local_at, day_start.
      pose proof (getHours_bounds scheduledTime).
      pose proof (Z.mod_pos_bound now ms_per_day).
      pose proof (Z.mod_pos_bound scheduledTime ms_per_hour).
      assert (0 <= (scheduledTime mod ms_per_hour) / 60000 <= 59).
      { unfold ms_per_hour in *. split; [apply Z.div_pos; lia|].
        apply Z.lt_succ_r, Z.div_lt_upper_bound; lia. }
      unfold ms_per_day, ms_per_hour in *. lia. }
    split; [apply Z.div_pos; lia|].
    apply Z.lt_succ_r, Z.div_lt_upper_bound; lia.
  - pose proof (Z.mod_pos_bound diff (1000 * 60 * 60)). split; [apply Z.div_pos; lia|].
    apply Z.lt_succ_r, Z.div_lt_upper_bound; lia.
Qed.

(** ** SchedulingService.detectConflicts *)

Lemma pair_conflicts_timing (l : list Z) :
  ~ In Conflicts.timing_conflict (Conflicts.pair_conflicts l) <->
  ForallOrdPairs (fun a b => 30 * 60 * 1000 <= Z.abs (a - b)) l.
Proof.
  induction l as [|x l IH]; simpl.
  - split; [constructor | tauto].
  - rewrite in_app_iff, in_map_iff. split.
    + intros H. constructor.
      * apply Forall_forall. intros y Hy.
        destruct (Z.ltb_spec (Z.abs (x - y)) (30 * 60 * 1000)) as [Hc|Hc]; [|exact Hc].
        exfalso. apply H. left. exists y. split; [reflexivity|].
        apply filter_In. split; [exact Hy | apply Z.ltb_lt; exact Hc].
      * apply IH. intros H'. apply H. right. exact H'.
    + intros H. inversion H as [|? ? Hx Hl]; subst. intros [[y [_ Hy]]|H'].
      * apply filter_In in Hy. destruct Hy as [Hy Hc]. apply Z.ltb_lt in Hc.
        rewrite Forall_forall in Hx. specialize (Hx y Hy). lia.
      * apply IH in Hl. exact (Hl H').
Qed.

Lemma dose_conflicts_schedule meds doses c :
  In c (Conflicts.dose_conflicts meds doses) -> c = Conflicts.schedule_conflict.
Proof.
  unfold Conflicts.dose_conflicts. rewrite in_flat_map. intros [d [_ Hc]].
  destruct (DoseEvent.status d); try contradiction.
  destruct (find _ meds); [|contradiction]. destruct Hc as [<-|[]]. reflexivity.
Qed.

(** [detectConflicts] reports no timing conflict exactly when every two
    entries of the scheduled times of all medications together (a time
    listed twice included) are at least 30 minutes apart. *)
Theorem detectConflicts_timing_iff
    (medications : list Conflicts.ScheduledMedication)
    (existingDoses : list DoseEvent.t) :
  ~ In Conflicts.timing_conflict (Conflicts.detectConflicts medications existingDoses)
  <-> ForallOrdPairs (fun a b => 30 * 60 * 1000 <= Z.abs (a - b))
        (flat_map Conflicts.scheduledTimes medications).
Proof.
  unfold Conflicts.detectConflicts. rewrite <- pair_conflicts_timing.
  rewrite in_app_iff. split; [tauto|].
  intros H [H1|H1]; [exact (H H1)|].
  apply dose_conflicts_schedule in H1. discriminate.
Qed.

(** ** NotificationService.findNearestMeal *)

Lemma nearest_loop_spec (time : Z) (l : list Meals.MealEvent) (cur : Meals.MealEvent) :
  let dist m := Z.abs (Meals.dateTime m - time) in
  let res := Meals.nearest_loop time l (Some cur) (Some (dist cur)) in
  (res = Some cur /\ Forall (fun m => dist cur <= dist m) l) \/
  (exists m pre post, res = Some m /\ l = pre ++ m :: post /\ dist m < dist cur /\
     Forall (fun m' => dist m < dist m') pre /\
     Forall (fun m' => dist m <= dist m') post).
Proof.
  cbv zeta. revert cur. induction l as [|x l IH]; intros cur; simpl.
  - left. split; [reflexivity | constructor].
  - destruct (Z.ltb_spec (Z.abs (Meals.dateTime x - time))
                         (Z.abs (Meals.dateTime cur - time))) as [Hx|Hx].
    + right. destruct (IH x) as [[-> Hall]|[m [pre [post [-> [-> [Hm [Hpre Hpost]]]]]]]].
      * exists x, [], l. repeat split; [lia | constructor | exact Hall].
      * exists m, (x :: pre), post. repeat split; [lia | | exact Hpost].
        constructor; [lia | exact Hpre].
    + destruct (IH cur) as [[-> Hall]|[m [pre [post [-> [-> [Hm [Hpre Hpost]]]]]]]].
      * left. split; [reflexivity | constructor; [lia | exact Hall]].
      * right. exists m, (x :: pre), post. repeat split; [lia | | exact Hpost].
        constructor; [lia | exact Hpre].
Qed.

(** [findNearestMeal] returns [null] only for an empty list of meals;
    otherwise it returns the first meal, in list order, whose distance to
    [time] is the smallest. *)
Theorem findNearestMeal_first_nearest (time : Z) (meals : list Meals.MealEvent) :
  match Meals.findNearestMeal time meals with
  | None => meals = []
  | Some m =>
      exists pre post, meals = pre ++ m :: post /\
        Forall (fun m' => Z.abs (Meals.dateTime m - time)
                          < Z.abs (Meals.dateTime m' - time)) pre /\
        Forall (fun m' => Z.abs (Meals.dateTime m - time)
                          <= Z.abs (Meals.dateTime m' - time)) post
  end.
Proof.
  unfold Meals.findNearestMeal. destruct meals as [|x l]; [reflexivity|].
  simpl. destruct (nearest_loop_spec time l x)
    as [[-> Hall]|[m [pre [post [-> [-> [Hm [Hpre Hpost]]]]]]]].
  - exists [], l. split; [reflexivity|]. split; [constructor | exact Hall].
  - exists (x :: pre), post. split; [reflexivity|]. split; [|exact Hpost].
    constructor; [exact Hm | exact Hpre].
Qed.

(** ** Instances of the properties above *)

Lemma calculateMedicationTime_within_bounds_witness :
  (Clamp.bound_of (Constraints.earliestTime Samples.windowed_constraint)
     Samples.oct4_0800 = Some (local_at Samples.oct4_0800 8 0 0 0) /\
   Clamp.bound_of (Constraints.latestTime Samples.windowed_constraint)
     Samples.oct4_0800 = Some (local_at Samples.oct4_0800 20 0 0 0) /\
   local_at Samples.oct4_0800 8 0 0 0 <= local_at Samples.oct4_0800 20 0 0 0) /\
  Forall (fun t => local_at Samples.oct4_0800 8 0 0 0 <= t
                   <= local_at Samples.oct4_0800 20 0 0 0)
    (Clamp.times (MedTime.calculateMedicationTime Samples.windowed_constraint
                    Samples.oct4_meals Samples.oct4_0800)).
Proof.
  split; [split; [vm_compute; reflexivity | split; [vm_compute; reflexivity | apply Z.leb_le; vm_compute; reflexivity]]|].
  apply calculateMedicationTime_within_bounds;
    [vm_compute; reflexivity | vm_compute; reflexivity | apply Z.leb_le; vm_compute; reflexivity].
Defined.

Lemma calculateMedicationTime_inverted_bounds_witness :
  (Clamp.bound_of (Constraints.earliestTime Samples.inverted_constraint)
     Samples.oct4_0800 = Some (local_at Samples.oct4_0800 21 0 0 0) /\
   Clamp.bound_of (Constraints.latestTime Samples.inverted_constraint)
     Samples.oct4_0800 = Some (local_at Samples.oct4_0800 6 0 0 0) /\
   local_at Samples.oct4_0800 6 0 0 0 < local_at Samples.oct4_0800 21 0 0 0) /\
  (Clamp.times (MedTime.calculateMedicationTime Samples.inverted_constraint
                  Samples.oct4_meals Samples.oct4_0800) = [] \/
   Clamp.times (MedTime.calculateMedicationTime Samples.inverted_constraint
                  Samples.oct4_meals Samples.oct4_0800)
   = [local_at Samples.oct4_0800 6 0 0 0]).
Proof.
  split; [split; [vm_compute; reflexivity | split; [vm_compute; reflexivity | apply Z.ltb_lt; vm_compute; reflexivity]]|].
  apply (calculateMedicationTime_inverted_bounds _ _ _
           (local_at Samples.oct4_0800 21 0 0 0));
    [vm_compute; reflexivity | vm_compute; reflexivity | apply Z.ltb_lt; vm_compute; reflexivity].
Defined.

Lemma calculateTimesPerDayNextDose_range_witness :
  1 <= 3 /\
  (let r := NextPill.calculateTimesPerDayNextDose 3 Samples.oct4_0800 in
   r = day_start Samples.oct4_0800 + ms_per_day + 7 * ms_per_hour \/
   (day_start Samples.oct4_0800 + getHours Samples.oct4_0800 * ms_per_hour <= r
    < day_start Samples.oct4_0800 + 22 * ms_per_hour)).
Proof. split; [lia | apply calculateTimesPerDayNextDose_range; lia]. Defined.

(** Both edges on 2024-10-04, twice a day: from 06:15, and from 23:00. *)
Lemma calculateTimesPerDayNextDose_edges_witness :
  (1 <= 2 /\ getHours (local_at Samples.oct4_0800 6 15 0 0) < 7 /\
   NextPill.calculateTimesPerDayNextDose 2 (local_at Samples.oct4_0800 6 15 0 0)
   = day_start (local_at Samples.oct4_0800 6 15 0 0) + 7 * ms_per_hour) /\
  (1 <= 2 /\ 22 <= getHours (local_at Samples.oct4_0800 23 0 0 0) /\
   NextPill.calculateTimesPerDayNextDose 2 (local_at Samples.oct4_0800 23 0 0 0)
   = day_start (local_at Samples.oct4_0800 23 0 0 0) + ms_per_day + 7 * ms_per_hour).
Proof.
  split.
  - split; [lia|]. split; [apply Z.ltb_lt; vm_compute; reflexivity|].
    apply (proj1 (calculateTimesPerDayNextDose_edges 2
                    (local_at Samples.oct4_0800 6 15 0 0) ltac:(lia))).
    apply Z.ltb_lt; vm_compute; reflexivity.
  - split; [lia|]. split; [apply Z.leb_le; vm_compute; reflexivity|].
    apply (proj2 (calculateTimesPerDayNextDose_edges 2
                    (local_at Samples.oct4_0800 23 0 0 0) ltac:(lia))).
    apply Z.leb_le; vm_compute; reflexivity.
Defined.

Lemma calculateNextDose_not_takeable_not_overdue_witness :
  let c := NextPill.calculateNextDoseForRegimen "Aspirin"%string
             (Samples.six_hourly (Some Samples.oct4_0800)) [] false
             (Samples.oct4_0800 + ms_per_hour) in
  NextPill.canTake c = false /\
  (Samples.oct4_0800 + ms_per_hour < NextPill.nextDueTime c /\
   NextPill.isOverdue c = false /\ NextPill.minutesOverdue c = None).
Proof.
  cbv zeta. split; [vm_compute; reflexivity|].
  apply calculateNextDose_not_takeable_not_overdue. vm_compute. reflexivity.
Defined.




Lemma markPillTaken_closed_db_witness :
  Store.db_open Samples.closed_world = false /\
  Store.markPillTaken "reg-6h"%string Samples.oct4_0800 Samples.closed_world =
  (inl (Store.JsError "Database not initialized. Call init() first."%string),
   Store.mkWorld false (Store.medications Samples.closed_world)
     (Store.regimens Samples.closed_world)
     (Store.constraints Samples.closed_world) (Store.dose_events Samples.closed_world)
     (Store.clock Samples.closed_world) (Store.uuid_counter Samples.closed_world)
     (Store.effects Samples.closed_world
      ++ [Store.ConsoleError "Error marking pill taken:"%string])).
Proof. split; [reflexivity | apply markPillTaken_closed_db; reflexivity]. Defined.

Lemma markPillTaken_frame_witness :
  let w := Samples.sample_world
             [Samples.six_hourly None; Samples.times_per_day_regimen 3] [] in
  Store.db_open w = true /\
  (let w' := snd (Store.markPillTaken "reg-6h"%string Samples.oct4_0800 w) in
   filter (fun x => negb (String.eqb (Regimen.id x) "reg-6h")) (Store.regimens w')
   = filter (fun x => negb (String.eqb (Regimen.id x) "reg-6h")) (Store.regimens w) /\
   Store.medications w' = Store.medications w /\
   Store.constraints w' = Store.constraints w /\
   exists ev, Store.dose_events w' = Store.dose_events w ++ [ev]).
Proof.
  cbv zeta. split; [reflexivity|].
  apply markPillTaken_frame. reflexivity.
Defined.

Lemma markPillTaken_unknown_regimen_witness :
  let w := Samples.sample_world [Samples.six_hourly None] [] in
  (Store.db_open w = true /\ Store.find_regimen w "reg-x"%string = None) /\
  (fst (Store.markPillTaken "reg-x"%string Samples.oct4_0800 w) = inr tt /\
   Store.regimens (snd (Store.markPillTaken "reg-x"%string Samples.oct4_0800 w))
   = Store.regimens w /\
   exists ev, Store.dose_events (snd (Store.markPillTaken "reg-x"%string
                                        Samples.oct4_0800 w))
              = Store.dose_events w ++ [ev] /\
     DoseEvent.regimenId ev = "reg-x"%string /\ DoseEvent.status ev = Taken /\
     DoseEvent.takenAt ev = Some Samples.oct4_0800).
Proof.
  cbv zeta. split; [split; [reflexivity | vm_compute; reflexivity]|].
  apply markPillTaken_unknown_regimen; [reflexivity | vm_compute; reflexivity].
Defined.

Lemma getTimeUntil_countdown_witness :
  Screen.isOverdue (Samples.oct4_0800 + 5400000) Samples.oct4_0800 = false /\
  exists hours minutes, 0 <= hours <= 23 /\ 0 <= minutes <= 59 /\
    Screen.getTimeUntil (Samples.oct4_0800 + 5400000) Samples.oct4_0800 =
    (if (0 <? hours)%Z
     then MedTime.js_int_string hours ++ "h " ++ MedTime.js_int_string minutes ++ "m"
     else MedTime.js_int_string minutes ++ "m")%string.
Proof.
  split; [vm_compute; reflexivity|].
  apply getTimeUntil_countdown. vm_compute. reflexivity.
Defined.
